(** * Deletion handler of the media host: [functions/api/manage/delete/[id].js]

    A shallow embedding of the three functions of the handler
    ([onRequest], [getRecordWithKey], [deleteTelegramMessage]) and of
    [jsonResponse], followed by the properties of the deletion path.

    The handler talks to three collaborators: the key-value binding
    [env.img_url], the object-store binding [env.R2_BUCKET] and the HTTP
    transport ([fetch] to the Telegram Bot API).  Every call to one of them
    is an event of a finite interaction tree; a handler answers the events,
    possibly by raising, and may look at everything that happened before.
    Running a program against a handler gives its result and the
    chronological log of the calls it issued.  [console.log], [console.warn]
    and [console.error] have no influence on control flow and are left out. *)

From Stdlib Require Import String Ascii List ZArith Bool Lia.
From stdpp Require Import gmap strings.
Import ListNotations.
Local Open Scope string_scope.
Local Open Scope list_scope.

(** ** JavaScript values *)

(** The values that can sit in a metadata attribute, an environment variable
    or a JSON answer.  [JNum] carries the integral numbers (message
    identifiers); [JObject] stands for any object or array, which is truthy
    whatever it holds. *)
Inductive jsval : Type :=
| JUndefined
| JNull
| JBool (b : bool)
| JNum (n : Z)
| JStr (s : string)
| JObject.

(** ToBoolean. *)
Definition truthy (v : jsval) : bool :=
  match v with
  | JUndefined | JNull => false
  | JBool b => b
  | JNum n => negb (n =? 0)%Z
  | JStr s => negb (String.eqb s "")
  | JObject => true
  end.

(** [a || b] yields its first operand when that is truthy, else the second. *)
Definition js_or (a b : jsval) : jsval := if truthy a then a else b.

(** [v === 'lit'] for a string literal. *)
Definition strict_eq_str (v : jsval) (lit : string) : bool :=
  match v with
  | JStr s => String.eqb s lit
  | _ => false
  end.

(** [s.startsWith(p)]. *)
Definition startsWith (s p : string) : bool := String.prefix p s.

(** [s.slice(n)] for [n >= 0]: the string without its first [n] units. *)
Fixpoint slice (n : nat) (s : string) : string :=
  match n, s with
  | O, _ => s
  | S n', String _ rest => slice n' rest
  | S _, EmptyString => EmptyString
  end.

(** ** Records of the data model *)

(** The attributes of a metadata object that the handler reads.  An
    attribute that is absent reads as [JUndefined]. *)
Record Metadata : Type := mkMetadata {
  storageType : jsval;
  storage : jsval;
  r2Key : jsval;
  telegramMessageId : jsval
}.

(** What [getWithMetadata] resolves to when it is not null: the raw value
    and the metadata.  [kv_metadata = None] is a null (falsy) metadata. *)
Record KvRecord : Type := mkKvRecord {
  kv_value : option string;
  kv_metadata : option Metadata
}.

(** The bindings [onRequest] reads from [context.env]: whether the key-value
    and object-store bindings are configured, and the two credentials. *)
Record Env : Type := mkEnv {
  img_url : bool;
  R2_BUCKET : bool;
  TG_Bot_Token : jsval;
  TG_Chat_ID : jsval
}.

(** [context]: the bindings and the raw path parameter [params.id]. *)
Record Context : Type := mkContext {
  env : Env;
  params_id : string
}.

(** The [Response] built by [jsonResponse]: the object handed to
    [JSON.stringify], property by property in source order, and the status.
    The Content-Type header is the constant application/json. *)
Record Response : Type := mkResponse {
  body : list (string * jsval);
  status : Z
}.

(** Property read on a body object. *)
Fixpoint field (name : string) (o : list (string * jsval)) : option jsval :=
  match o with
  | [] => None
  | (k, v) :: rest => if String.eqb k name then Some v else field name rest
  end.

(** ** Calls to the collaborators *)

(** An exception is an [Error] carrying its message, a string.  This is the
    whole of what the model lets a collaborator raise: a promise rejected
    with null, or with a value that is no [Error], is outside it.  Where
    [onRequest] reads [error.message] in its catch clause, it reads the
    message of such an [Error]. *)
Record JsError : Type := mkError { message : string }.

Inductive outcome (A : Type) : Type :=
| Returned (a : A)
| Raised (e : JsError).
Arguments Returned {A} a.
Arguments Raised {A} e.

(** What [fetch] resolves to: only [response.ok] is read. *)
Record FetchResponse : Type := mkFetchResponse { resp_ok : bool }.

(** What [response.json()] resolves to.  [BodyNull] is the JSON text null,
    on which a property read raises; any other value has an [ok] property,
    [JUndefined] when the answer has none. *)
Inductive JsonBody : Type :=
| BodyNull
| BodyValue (ok : jsval).

(** The awaited calls.  [Fetch token chat_id message_id] is the POST to
    https://api.telegram.org/bot<token>/deleteMessage with the JSON body
    of [chat_id] and [message_id]. *)
Inductive Event : Type -> Type :=
| KvGetWithMetadata (key : string) : Event (option KvRecord)
| KvDelete (key : string) : Event unit
| R2Delete (key : jsval) : Event unit
| Fetch (token chat_id message_id : jsval) : Event FetchResponse
| ResponseJson : Event JsonBody.

(** One line of the log: the call and how it ended. *)
Inductive LogEntry : Type :=
| LKvGet (key : string) (r : outcome (option KvRecord))
| LKvDelete (key : string) (r : outcome unit)
| LR2Delete (key : jsval) (r : outcome unit)
| LFetch (token chat_id message_id : jsval) (r : outcome FetchResponse)
| LJson (r : outcome JsonBody).

Definition entry {X} (ev : Event X) : outcome X -> LogEntry :=
  match ev in Event T return outcome T -> LogEntry with
  | KvGetWithMetadata key => LKvGet key
  | KvDelete key => LKvDelete key
  | R2Delete key => LR2Delete key
  | Fetch t c m => LFetch t c m
  | ResponseJson => LJson
  end.

(** The outside world: it answers a call knowing the log so far. *)
Definition Handler : Type := forall X, list LogEntry -> Event X -> outcome X.

(** ** Programs *)

Inductive Prog (A : Type) : Type :=
| Ret (a : A)
| Vis {X} (ev : Event X) (k : outcome X -> Prog A).
Arguments Ret {A} a.
Arguments Vis {A X} ev k.

Fixpoint pbind {A B} (p : Prog A) (f : A -> Prog B) : Prog B :=
  match p with
  | Ret a => f a
  | Vis ev k => Vis ev (fun r => pbind (k r) f)
  end.

(** Running a program: each call is answered by the handler and logged. *)
Fixpoint run {A} (p : Prog A) (h : Handler) (log : list LogEntry) : A * list LogEntry :=
  match p with
  | Ret a => (a, log)
  | Vis ev k => let r := h _ log ev in run (k r) h (log ++ [entry ev r])
  end.

(** A function body with mutable locals of type [S]: it runs from the
    current locals to a completion (a value or an exception) and the locals
    as the body left them.  An exception does not undo assignments. *)
Definition JS (S A : Type) : Type := S -> Prog (outcome A * S).

Definition ret {S A} (a : A) : JS S A := fun s => Ret (Returned a, s).
Definition throw {S A} (msg : string) : JS S A := fun s => Ret (Raised (mkError msg), s).

Definition bind {S A B} (m : JS S A) (f : A -> JS S B) : JS S B :=
  fun s => pbind (m s) (fun '(r, s') =>
    match r with
    | Returned a => f a s'
    | Raised e => Ret (Raised e, s')
    end).

(** [try { m } catch (error) { handler error }]. *)
Definition try_catch {S A} (m : JS S A) (handler : JsError -> JS S A) : JS S A :=
  fun s => pbind (m s) (fun '(r, s') =>
    match r with
    | Returned a => Ret (Returned a, s')
    | Raised e => handler e s'
    end).

(** [try { m } finally { cleanup }]: the cleanup runs after [m] however it
    completed; the completion of [m] stands unless the cleanup raises. *)
Definition try_finally {S A} (m : JS S A) (cleanup : JS S unit) : JS S A :=
  fun s => pbind (m s) (fun '(r, s') =>
    pbind (cleanup s') (fun '(c, s'') =>
      match c with
      | Returned _ => Ret (r, s'')
      | Raised e => Ret (Raised e, s'')
      end)).

(** [await] of a call to a collaborator. *)
Definition await {S X} (ev : Event X) : JS S X := fun s => Vis ev (fun r => Ret (r, s)).

Definition get_locals {S} : JS S S := fun s => Ret (Returned s, s).
Definition modify {S} (f : S -> S) : JS S unit := fun s => Ret (Returned tt, f s).

(** A call of another function of the file: the callee starts with its own
    locals, which are gone when it completes. *)
Definition invoke {S S' A} (callee : JS S' A) (init : S') : JS S A :=
  fun s => pbind (callee init) (fun '(r, _) => Ret (r, s)).

Declare Scope js_scope.
Delimit Scope js_scope with js.
Notation "x <- m ;; k" := (bind m (fun x => k))
  (at level 100, m at next level, right associativity) : js_scope.
Notation "m ;; k" := (bind m (fun _ => k))
  (at level 100, right associativity) : js_scope.

Local Open Scope js_scope.

(** ** The handler *)

(** [jsonResponse(body, status = 200)]. *)
Definition jsonResponse (body : list (string * jsval)) (status : Z) : Response :=
  mkResponse body status.

Definition jsonResponse200 (body : list (string * jsval)) : Response :=
  jsonResponse body 200.

(** The [prefixes] array of [getRecordWithKey]. *)
Definition prefixes : list string := ["img:"; "vid:"; "aud:"; "doc:"; "r2:"; ""].

(** [prefixes.some((prefix) => prefix && fileId.startsWith(prefix))]. *)
Definition hasKnownPrefix (fileId : string) : bool :=
  existsb (fun prefix => negb (String.eqb prefix "") && startsWith fileId prefix) prefixes.

(** [hasKnownPrefix ? [fileId] : prefixes.map((prefix) => `${prefix}${fileId}`)]. *)
Definition candidateKeys (fileId : string) : list string :=
  if hasKnownPrefix fileId then [fileId]
  else map (fun prefix => String.append prefix fileId) prefixes.

(** [record && record.metadata]. *)
Definition record_metadata (record : option KvRecord) : option Metadata :=
  match record with
  | Some r => kv_metadata r
  | None => None
  end.

(** The [for (const key of candidateKeys)] loop of [getRecordWithKey] and
    the return that follows it. *)
Fixpoint probe {S} (keys : list string) (fileId : string) : JS S (option KvRecord * string) :=
  match keys with
  | [] => ret (None, fileId)
  | key :: rest =>
      record <- await (KvGetWithMetadata key) ;;
      match record_metadata record with
      | Some _ => ret (record, key)
      | None => probe rest fileId
      end
  end.

Definition getRecordWithKey (fileId : string) : JS unit (option KvRecord * string) :=
  probe (candidateKeys fileId) fileId.

(** [data.ok]: a property read on null raises a TypeError. *)
Definition read_ok {S} (data : JsonBody) : JS S jsval :=
  match data with
  | BodyNull => throw "Cannot read properties of null (reading 'ok')"
  | BodyValue ok => ret ok
  end.

(** [deleteTelegramMessage(messageId, env)].  Its one mutable local is
    [data], declared as [{ ok: false }]. *)
Definition deleteTelegramMessage (messageId : jsval) (env : Env) : JS JsonBody jsval :=
  if negb (truthy messageId) || negb (truthy (TG_Bot_Token env)) || negb (truthy (TG_Chat_ID env))
  then ret (JBool false)
  else
    try_catch
      (response <- await (Fetch (TG_Bot_Token env) (TG_Chat_ID env) messageId) ;;
       modify (fun _ => BodyValue (JBool false)) ;;
       try_catch
         (parsed <- await ResponseJson ;;
          modify (fun _ => parsed))
         (fun jsonError => ret tt) ;;
       data <- get_locals ;;
       if resp_ok response then read_ok data else ret (JBool false))
      (fun error => ret (JBool false)).

(** The mutable locals of the Telegram path of [onRequest]. *)
Record Locals : Type := mkLocals {
  telegramDeleted : jsval;
  telegramDeleteAttempted : bool;
  telegramDeleteError : option JsError
}.

Definition set_telegramDeleted (v : jsval) : JS Locals unit :=
  modify (fun l => mkLocals v (telegramDeleteAttempted l) (telegramDeleteError l)).
Definition set_telegramDeleteAttempted (b : bool) : JS Locals unit :=
  modify (fun l => mkLocals (telegramDeleted l) b (telegramDeleteError l)).
Definition set_telegramDeleteError (e : JsError) : JS Locals unit :=
  modify (fun l => mkLocals (telegramDeleted l) (telegramDeleteAttempted l) (Some e)).

(** [fileId.startsWith('r2:') || metadata.storageType === 'r2' || metadata.storage === 'r2']. *)
Definition isR2 (fileId : string) (metadata : Metadata) : bool :=
  startsWith fileId "r2:" || strict_eq_str (storageType metadata) "r2"
  || strict_eq_str (storage metadata) "r2".

(** The [r2Key] constant of the object-store branch:
    [metadata.r2Key || (kvKey?.startsWith('r2:') ? kvKey.slice(3) : null)
     || (fileId.startsWith('r2:') ? fileId.slice(3) : fileId)]. *)
Definition resolveR2Key (metadata : Metadata) (kvKey fileId : string) : jsval :=
  js_or (js_or (r2Key metadata)
               (if startsWith kvKey "r2:" then JStr (slice 3 kvKey) else JNull))
        (if startsWith fileId "r2:" then JStr (slice 3 fileId) else JStr fileId).

Section Handler.

(** [decodeURIComponent] of the runtime; [None] when it raises URIError. *)
Variable decodeURIComponent : string -> option string.

(** [fileId] after the first try/catch of [onRequest]: the decoded
    parameter, or the raw one when decoding raised. *)
Definition decodedFileId (raw : string) : string :=
  match decodeURIComponent raw with
  | Some decoded => decoded
  | None => raw
  end.

Definition onRequest (context : Context) : JS Locals Response :=
  let env := env context in
  let fileId := decodedFileId (params_id context) in
  try_catch
    (if negb (img_url env) then throw "KV binding img_url is not configured."
     else
       resolved <- invoke (getRecordWithKey fileId) tt ;;
       let '(record, kvKey) := resolved in
       match record_metadata record with
       | None =>
           ret (jsonResponse
                  [("success", JBool false); ("error", JStr "File metadata not found.")]
                  404)
       | Some metadata =>
           if isR2 fileId metadata then
             let r2Key := resolveR2Key metadata kvKey fileId in
             if negb (R2_BUCKET env) then throw "R2 bucket is not configured."
             else if negb (truthy r2Key) then throw "Failed to resolve R2 key."
             else
               await (R2Delete r2Key) ;;
               await (KvDelete kvKey) ;;
               ret (jsonResponse200
                      [("success", JBool true);
                       ("message", JStr "Deleted from R2 and KV.");
                       ("fileId", JStr fileId);
                       ("r2Key", r2Key);
                       ("kvKey", JStr kvKey)])
           else
             modify (fun _ => mkLocals (JBool false) false None) ;;
             try_finally
               (try_catch
                  (if truthy (telegramMessageId metadata) then
                     set_telegramDeleteAttempted true ;;
                     deleted <- invoke (deleteTelegramMessage (telegramMessageId metadata) env)
                                       (BodyValue (JBool false)) ;;
                     set_telegramDeleted deleted
                   else ret tt)
                  (fun error => set_telegramDeleteError error))
               (await (KvDelete kvKey)) ;;
             l <- get_locals ;;
             ret (jsonResponse200
                    [("success", JBool true);
                     ("message", JStr (if truthy (telegramDeleted l)
                                       then "Deleted from Telegram and KV."
                                       else "KV metadata deleted (Telegram deletion best-effort)."));
                     ("fileId", JStr fileId);
                     ("kvKey", JStr kvKey);
                     ("telegramDeleteAttempted", JBool (telegramDeleteAttempted l));
                     ("telegramDeleted", telegramDeleted l);
                     ("warning", JStr (if truthy (telegramDeleted l)
                                       then ""
                                       else "Telegram deletion failed or messageId missing, but KV metadata was forcibly deleted."));
                     ("telegramDeleteError",
                      match telegramDeleteError l with
                      | Some e => JStr (message e)
                      | None => JNull
                      end)])
       end)
    (fun error =>
       ret (jsonResponse
              [("success", JBool false); ("error", JStr (message error))]
              500)).

(** One request against a world: the completion of [onRequest] and the
    calls it issued, in order. *)
Definition initial_locals : Locals := mkLocals JUndefined false None.

Definition serve (h : Handler) (context : Context) : outcome Response * list LogEntry :=
  let '((r, _), log) := run (onRequest context initial_locals) h [] in (r, log).

End Handler.

(** ** Worlds *)

(** The store after the calls of a log: a delete that returned removes its
    key. *)
Definition kv_after (store : gmap string KvRecord) (log : list LogEntry) : gmap string KvRecord :=
  fold_left (fun m e =>
               match e with
               | LKvDelete key (Returned _) => delete key m
               | _ => m
               end) log store.

(** A world whose key-value binding is the store [store], read and deleted
    without failure, whose object store answers a delete by [r2], and whose
    transport answers by [net] and [parsed]. *)
Definition store_world (store : gmap string KvRecord) (r2 : jsval -> outcome unit)
    (net : outcome FetchResponse) (parsed : outcome JsonBody) : Handler :=
  fun X log ev =>
    match ev in Event T return outcome T with
    | KvGetWithMetadata key => Returned (kv_after store log !! key)
    | KvDelete _ => Returned tt
    | R2Delete key => r2 key
    | Fetch _ _ _ => net
    | ResponseJson => parsed
    end.

(** An empty store whose collaborators never fail. *)
Definition empty_world : Handler :=
  store_world ∅ (fun _ => Returned tt) (Returned (mkFetchResponse true))
    (Returned (BodyValue (JBool true))).

(** Every lookup resolves to null; nothing fails. *)
Definition absent_world : Handler :=
  fun X log ev =>
    match ev in Event T return outcome T with
    | KvGetWithMetadata _ => Returned None
    | KvDelete _ => Returned tt
    | R2Delete _ => Returned tt
    | Fetch _ _ _ => Returned (mkFetchResponse true)
    | ResponseJson => Returned (BodyValue (JBool true))
    end.

(** A record held by the messaging backend, with message reference [mid],
    and one held by the object store. *)
Definition telegram_record (mid : jsval) : KvRecord :=
  mkKvRecord (Some "") (Some (mkMetadata JUndefined JUndefined JUndefined mid)).

Definition object_store_record : KvRecord :=
  mkKvRecord (Some "") (Some (mkMetadata (JStr "r2") JUndefined JUndefined JUndefined)).

Definition sample_store : gmap string KvRecord :=
  {[ "img:xyz" := telegram_record (JNum 7); "r2:abc123" := object_store_record ]}.

(** The transport is unreachable. *)
Definition network_down_world : Handler :=
  store_world sample_store (fun _ => Returned tt) (Raised (mkError "network error"))
    (Returned BodyNull).

(** The object store refuses every delete. *)
Definition bucket_down_world : Handler :=
  store_world sample_store (fun _ => Raised (mkError "R2 unavailable"))
    (Returned (mkFetchResponse true)) (Returned (BodyValue (JBool true))).

(** A store with one Telegram-backed record under the bare key abc, and a
    transport that answers with HTTP success and a JSON object that has no
    [ok] property. *)
Definition unacknowledged_world : Handler :=
  store_world {[ "abc" := telegram_record (JNum 5) ]} (fun _ => Returned tt) (Returned (mkFetchResponse true)) (Returned (BodyValue JUndefined)).

(** Bindings: all configured; configured but for the bot token. *)
Definition configured_env : Env := mkEnv true true (JStr "token") (JStr "chat").

Definition tokenless_env : Env := mkEnv true true JUndefined (JStr "chat").

(** ** Reading a log *)

Definition is_kv_get (e : LogEntry) : bool :=
  match e with LKvGet _ _ => true | _ => false end.
Definition is_kv_delete (e : LogEntry) : bool :=
  match e with LKvDelete _ _ => true | _ => false end.
Definition is_r2_delete (e : LogEntry) : bool :=
  match e with LR2Delete _ _ => true | _ => false end.
(** The calls of the messaging transport: [fetch] and [response.json()]. *)
Definition is_transport (e : LogEntry) : bool :=
  match e with LFetch _ _ _ _ | LJson _ => true | _ => false end.

(** A lookup that resolved without a usable record: null, or no metadata. *)
Definition is_miss (e : LogEntry) : bool :=
  match e with
  | LKvGet _ (Returned record) =>
      match record_metadata record with Some _ => false | None => true end
  | _ => false
  end.

(** The key a call on the key-value store is about. *)
Definition entry_key (e : LogEntry) : option string :=
  match e with
  | LKvGet key _ | LKvDelete key _ => Some key
  | _ => None
  end.

(** Number of calls of a kind in a log. *)
Definition issued (kind : LogEntry -> bool) (log : list LogEntry) : nat :=
  length (List.filter kind log).

(** [e] is the call it names, answered by [h] on the log [log]. *)
Definition answered (h : Handler) (log : list LogEntry) (e : LogEntry) : Prop :=
  match e with
  | LKvGet key r => r = h _ log (KvGetWithMetadata key)
  | LKvDelete key r => r = h _ log (KvDelete key)
  | LR2Delete key r => r = h _ log (R2Delete key)
  | LFetch t c m r => r = h _ log (Fetch t c m)
  | LJson r => r = h _ log ResponseJson
  end.

(** How a run of the loop over [keys] can end: the lookups it issued are
    those of an initial segment of [keys], in order; all but possibly the
    last are misses; the last one decides. *)
Definition probe_outcome (keys : list string) (fileId : string)
    (r : outcome (option KvRecord * string)) (probed : list LogEntry) : Prop :=
  exists misses final,
    probed = misses ++ final /\
    forallb is_miss misses = true /\
    map entry_key probed = map Some (take (length probed) keys) /\
    ((final = [] /\ length misses = length keys /\ r = Returned (None, fileId))
     \/ (exists key record m,
           final = [LKvGet key (Returned (Some record))] /\
           kv_metadata record = Some m /\ r = Returned (Some record, key))
     \/ (exists key e, final = [LKvGet key (Raised e)] /\ r = Raised e)).

(** The resolver, run at the start of the request, returned [record] under
    [kvKey] after the lookups [probes]. *)
Definition resolves (decodeURIComponent : string -> option string) (h : Handler)
    (context : Context) (record : option KvRecord) (kvKey : string)
    (probes : list LogEntry) : Prop :=
  run (getRecordWithKey (decodedFileId decodeURIComponent (params_id context)) tt) h []
  = ((Returned (record, kvKey), tt), probes).

(** ** Response bodies *)

(** The body of a failure, of the object-store success and of the messaging
    success, as [onRequest] builds them. *)
Definition error_body (msg : string) : list (string * jsval) :=
  [("success", JBool false); ("error", JStr msg)].

Definition r2_body (fileId : string) (key : jsval) (kvKey : string) : list (string * jsval) :=
  [("success", JBool true); ("message", JStr "Deleted from R2 and KV.");
   ("fileId", JStr fileId); ("r2Key", key); ("kvKey", JStr kvKey)].

Definition telegram_body (fileId kvKey : string) (l : Locals) : list (string * jsval) :=
  [("success", JBool true);
   ("message", JStr (if truthy (telegramDeleted l)
                     then "Deleted from Telegram and KV."
                     else "KV metadata deleted (Telegram deletion best-effort)."));
   ("fileId", JStr fileId);
   ("kvKey", JStr kvKey);
   ("telegramDeleteAttempted", JBool (telegramDeleteAttempted l));
   ("telegramDeleted", telegramDeleted l);
   ("warning", JStr (if truthy (telegramDeleted l)
                     then ""
                     else "Telegram deletion failed or messageId missing, but KV metadata was forcibly deleted."));
   ("telegramDeleteError",
    match telegramDeleteError l with
    | Some e => JStr (message e)
    | None => JNull
    end)].

(** ** The wording of the contract *)

(** The wording of the resolver contract taken literally: the identifier
    carries one of the listed prefixes, the list including the empty one
    ("no prefix marker"). *)
Definition carries_listed_prefix (fileId : string) : bool :=
  existsb (fun prefix => startsWith fileId prefix) prefixes.

(** The resolution order as the contract words it, each entry present only
    when it applies: the explicit [r2Key] attribute; the Storage Key without
    the object-store prefix, if the Storage Key carries that prefix; the
    Asset Identifier without the object-store prefix, if present, otherwise
    the raw Asset Identifier. *)
Definition physical_key_candidates (metadata : Metadata) (kvKey fileId : string) : list jsval :=
  [r2Key metadata]
  ++ (if startsWith kvKey "r2:" then [JStr (slice 3 kvKey)] else [])
  ++ [if startsWith fileId "r2:" then JStr (slice 3 fileId) else JStr fileId].

(** "First non-empty wins". *)
Definition first_non_empty (candidates : list jsval) : option jsval :=
  List.find truthy candidates.

(** ** Worlds that fail *)

(** The key-value binding raises on every lookup. *)
Definition kv_unreachable_world : Handler :=
  fun X log ev =>
    match ev in Event T return outcome T with
    | KvGetWithMetadata _ => Raised (mkError "KV unavailable")
    | KvDelete _ => Returned tt
    | R2Delete _ => Returned tt
    | Fetch _ _ _ => Returned (mkFetchResponse true)
    | ResponseJson => Returned (BodyValue (JBool true))
    end.

(** The key-value binding answers lookups from [store] and raises on every
    delete; the object store and the transport succeed. *)
Definition kv_readonly_world (store : gmap string KvRecord) : Handler :=
  fun X log ev =>
    match ev in Event T return outcome T with
    | KvGetWithMetadata key => Returned (store !! key)
    | KvDelete _ => Raised (mkError "KV write failed")
    | R2Delete _ => Returned tt
    | Fetch _ _ _ => Returned (mkFetchResponse true)
    | ResponseJson => Returned (BodyValue (JBool true))
    end.

(** ** The ways a request can run *)

(** The remote deletion step of the messaging path, started on the log
    [probes]: its result and the calls it logged.  Without a message
    reference it is skipped. *)
Definition remote_attempt (h : Handler) (env : Env) (mid : jsval)
    (probes : list LogEntry) (deleted : jsval) (remote : list LogEntry) : Prop :=
  if truthy mid
  then exists data,
      run (deleteTelegramMessage mid env (BodyValue (JBool false))) h probes
      = ((Returned deleted, data), probes ++ remote)
  else deleted = JBool false /\ remote = [].

(** The record of a request was resolved with metadata, and classified. *)
Definition classified (decodeURIComponent : string -> option string) (h : Handler)
    (context : Context) (record : option KvRecord) (kvKey : string)
    (probes : list LogEntry) (metadata : Metadata) (object_store : bool) : Prop :=
  img_url (env context) = true /\
  resolves decodeURIComponent h context record kvKey probes /\
  record_metadata record = Some metadata /\
  isR2 (decodedFileId decodeURIComponent (params_id context)) metadata = object_store.

(** Every way [onRequest] can run against a world, leaf by leaf of its
    control flow, with the response and the log of each. *)
Inductive request_trace (decodeURIComponent : string -> option string) (h : Handler)
    (context : Context) : outcome Response -> list LogEntry -> Prop :=
| trace_unconfigured :
    img_url (env context) = false ->
    request_trace decodeURIComponent h context
      (Returned (mkResponse (error_body "KV binding img_url is not configured.") 500)) []
| trace_lookup_raised e probes :
    img_url (env context) = true ->
    run (getRecordWithKey (decodedFileId decodeURIComponent (params_id context)) tt) h []
    = ((Raised e, tt), probes) ->
    request_trace decodeURIComponent h context
      (Returned (mkResponse (error_body (message e)) 500)) probes
| trace_not_found record kvKey probes :
    img_url (env context) = true ->
    resolves decodeURIComponent h context record kvKey probes ->
    record_metadata record = None ->
    request_trace decodeURIComponent h context
      (Returned (mkResponse (error_body "File metadata not found.") 404)) probes
| trace_no_bucket record kvKey probes metadata :
    classified decodeURIComponent h context record kvKey probes metadata true ->
    R2_BUCKET (env context) = false ->
    request_trace decodeURIComponent h context
      (Returned (mkResponse (error_body "R2 bucket is not configured.") 500)) probes
| trace_no_physical_key record kvKey probes metadata :
    classified decodeURIComponent h context record kvKey probes metadata true ->
    R2_BUCKET (env context) = true ->
    truthy (resolveR2Key metadata kvKey
              (decodedFileId decodeURIComponent (params_id context))) = false ->
    request_trace decodeURIComponent h context
      (Returned (mkResponse (error_body "Failed to resolve R2 key.") 500)) probes
| trace_payload_delete_raised record kvKey probes metadata key e :
    classified decodeURIComponent h context record kvKey probes metadata true ->
    R2_BUCKET (env context) = true ->
    key = resolveR2Key metadata kvKey
            (decodedFileId decodeURIComponent (params_id context)) ->
    truthy key = true ->
    h _ probes (R2Delete key) = Raised e ->
    request_trace decodeURIComponent h context
      (Returned (mkResponse (error_body (message e)) 500))
      (probes ++ [LR2Delete key (Raised e)])
| trace_object_store_metadata_raised record kvKey probes metadata key u e :
    classified decodeURIComponent h context record kvKey probes metadata true ->
    R2_BUCKET (env context) = true ->
    key = resolveR2Key metadata kvKey
            (decodedFileId decodeURIComponent (params_id context)) ->
    truthy key = true ->
    h _ probes (R2Delete key) = Returned u ->
    h _ (probes ++ [LR2Delete key (Returned u)]) (KvDelete kvKey) = Raised e ->
    request_trace decodeURIComponent h context
      (Returned (mkResponse (error_body (message e)) 500))
      (probes ++ [LR2Delete key (Returned u); LKvDelete kvKey (Raised e)])
| trace_object_store_deleted record kvKey probes metadata key u u' :
    classified decodeURIComponent h context record kvKey probes metadata true ->
    R2_BUCKET (env context) = true ->
    key = resolveR2Key metadata kvKey
            (decodedFileId decodeURIComponent (params_id context)) ->
    truthy key = true ->
    h _ probes (R2Delete key) = Returned u ->
    h _ (probes ++ [LR2Delete key (Returned u)]) (KvDelete kvKey) = Returned u' ->
    request_trace decodeURIComponent h context
      (Returned (mkResponse
                   (r2_body (decodedFileId decodeURIComponent (params_id context)) key kvKey)
                   200))
      (probes ++ [LR2Delete key (Returned u); LKvDelete kvKey (Returned u')])
| trace_messaging_metadata_raised record kvKey probes metadata deleted remote e :
    classified decodeURIComponent h context record kvKey probes metadata false ->
    remote_attempt h (env context) (telegramMessageId metadata) probes deleted remote ->
    h _ (probes ++ remote) (KvDelete kvKey) = Raised e ->
    request_trace decodeURIComponent h context
      (Returned (mkResponse (error_body (message e)) 500))
      (probes ++ remote ++ [LKvDelete kvKey (Raised e)])
| trace_messaging_deleted record kvKey probes metadata deleted remote u :
    classified decodeURIComponent h context record kvKey probes metadata false ->
    remote_attempt h (env context) (telegramMessageId metadata) probes deleted remote ->
    h _ (probes ++ remote) (KvDelete kvKey) = Returned u ->
    request_trace decodeURIComponent h context
      (Returned (mkResponse
                   (telegram_body (decodedFileId decodeURIComponent (params_id context)) kvKey
                      (mkLocals deleted (truthy (telegramMessageId metadata)) None))
                   200))
      (probes ++ remote ++ [LKvDelete kvKey (Returned u)]).

(** ** The primitives on small inputs *)

Example slice_strips_prefix : slice 3 "r2:abc123" = "abc123".
Proof. reflexivity. Qed.

Example slice_past_the_end : slice 3 "r2" = "".
Proof. reflexivity. Qed.

Example bare_identifier_has_no_known_prefix : hasKnownPrefix "xyz" = false.
Proof. reflexivity. Qed.

Example typed_identifier_has_known_prefix : hasKnownPrefix "doc:report" = true.
Proof. reflexivity. Qed.

Example zero_is_falsy : truthy (JNum 0) = false.
Proof. reflexivity. Qed.

Example or_yields_last_operand : js_or JUndefined (js_or JNull (JStr "")) = JStr "".
Proof. reflexivity. Qed.

(** ** Running programs: general facts *)

Lemma run_pbind {A B} (p : Prog A) (f : A -> Prog B) h log :
  run (pbind p f) h log = let '(a, log') := run p h log in run (f a) h log'.
Proof.
  revert log. induction p as [a | X ev k IH]; intros log; simpl.
  - reflexivity.
  - apply IH.
Qed.

Lemma run_extends {A} (p : Prog A) h log :
  exists calls, snd (run p h log) = log ++ calls.
Proof.
  revert log. induction p as [a | X ev k IH]; intros log; simpl.
  - exists []. now rewrite app_nil_r.
  - destruct (IH (h X log ev) (log ++ [entry ev (h X log ev)])) as [calls Hc].
    exists (entry ev (h X log ev) :: calls). rewrite Hc.
    now rewrite <- app_assoc.
Qed.

Lemma run_bind {S A B} (m : JS S A) (f : A -> JS S B) s h log :
  run (bind m f s) h log =
  let '((r, s'), log') := run (m s) h log in
  match r with
  | Returned a => run (f a s') h log'
  | Raised e => ((Raised e, s'), log')
  end.
Proof.
  unfold bind. rewrite run_pbind.
  destruct (run (m s) h log) as [[[a | e] s'] log']; reflexivity.
Qed.

Lemma run_try_catch {S A} (m : JS S A) (handler : JsError -> JS S A) s h log :
  run (try_catch m handler s) h log =
  let '((r, s'), log') := run (m s) h log in
  match r with
  | Returned a => ((Returned a, s'), log')
  | Raised e => run (handler e s') h log'
  end.
Proof.
  unfold try_catch. rewrite run_pbind.
  destruct (run (m s) h log) as [[[a | e] s'] log']; reflexivity.
Qed.

Lemma run_try_finally {S A} (m : JS S A) (cleanup : JS S unit) s h log :
  run (try_finally m cleanup s) h log =
  let '((r, s'), log') := run (m s) h log in
  let '((c, s''), log'') := run (cleanup s') h log' in
  match c with
  | Returned _ => ((r, s''), log'')
  | Raised e => ((Raised e, s''), log'')
  end.
Proof.
  unfold try_finally. rewrite run_pbind.
  destruct (run (m s) h log) as [[r s'] log']. rewrite run_pbind.
  destruct (run (cleanup s') h log') as [[[u | e] s''] log'']; reflexivity.
Qed.

Lemma run_invoke {S S' A} (callee : JS S' A) (init : S') (s : S) h log :
  run (invoke callee init s) h log =
  let '((r, _), log') := run (callee init) h log in ((r, s), log').
Proof.
  unfold invoke. rewrite run_pbind.
  destruct (run (callee init) h log) as [[r s'] log']; reflexivity.
Qed.

Lemma run_await {S X} (ev : Event X) (s : S) h log :
  run (await ev s) h log = ((h X log ev, s), log ++ [entry ev (h X log ev)]).
Proof. reflexivity. Qed.

Lemma run_ret {S A} (a : A) (s : S) h log :
  run (ret a s) h log = ((Returned a, s), log).
Proof. reflexivity. Qed.

Lemma run_throw {S A} msg (s : S) h log :
  run (@throw S A msg s) h log = ((Raised (mkError msg), s), log).
Proof. reflexivity. Qed.

Lemma run_modify {S} (f : S -> S) (s : S) h log :
  run (modify f s) h log = ((Returned tt, f s), log).
Proof. reflexivity. Qed.

Lemma run_get_locals {S} (s : S) h log :
  run (get_locals s) h log = ((Returned s, s), log).
Proof. reflexivity. Qed.

Create Rewrite HintDb run_db.
#[local] Hint Rewrite @run_bind @run_try_catch @run_try_finally @run_invoke
  @run_await @run_ret @run_throw @run_modify @run_get_locals : run_db.

(** The cleanup of a try/finally is run exactly once, on the log the body
    left, whether the body returned or raised. *)
Lemma try_finally_cleanup_once {S A} (m : JS S A) (ev : Event unit) s h log :
  exists r s' log',
    run (m s) h log = ((r, s'), log') /\
    snd (run (try_finally m (await ev) s) h log) = log' ++ [entry ev (h unit log' ev)].
Proof.
  destruct (run (m s) h log) as [[r s'] log'] eqn:Hm.
  exists r, s', log'. split; [reflexivity |].
  rewrite run_try_finally, Hm, run_await.
  destruct (h unit log' ev); reflexivity.
Qed.

(** ** deleteTelegramMessage *)

Lemma deleteTelegramMessage_cases (messageId : jsval) (env : Env) (s : JsonBody) h log :
  let credentials := truthy messageId && truthy (TG_Bot_Token env) && truthy (TG_Chat_ID env) in
  let call := Fetch (TG_Bot_Token env) (TG_Chat_ID env) messageId in
  exists v s' calls,
    run (deleteTelegramMessage messageId env s) h log = ((Returned v, s'), log ++ calls) /\
    ((credentials = false /\ calls = [] /\ v = JBool false)
     \/ (credentials = true /\ exists e,
           calls = [entry call (Raised e)] /\ v = JBool false)
     \/ (credentials = true /\ exists response e,
           calls = [entry call (Returned response); LJson (Raised e)] /\ v = JBool false)
     \/ (credentials = true /\ exists parsed,
           calls = [entry call (Returned (mkFetchResponse false)); LJson (Returned parsed)]
           /\ v = JBool false)
     \/ (credentials = true /\
           calls = [entry call (Returned (mkFetchResponse true)); LJson (Returned BodyNull)]
           /\ v = JBool false)
     \/ (credentials = true /\ exists ok,
           calls = [entry call (Returned (mkFetchResponse true));
                    LJson (Returned (BodyValue ok))]
           /\ v = ok)).
Proof.
  intros credentials call. subst credentials call.
  unfold deleteTelegramMessage.
  destruct (truthy messageId) eqn:Hm; simpl;
    [destruct (truthy (TG_Bot_Token env)) eqn:Ht; simpl;
     [destruct (truthy (TG_Chat_ID env)) eqn:Hc; simpl |] |].
  2-4: exists (JBool false), s, []; rewrite app_nil_r; split; [reflexivity | left; auto].
  unfold try_catch, bind, await, modify, get_locals, read_ok, ret, throw. simpl.
  destruct (h FetchResponse log (Fetch (TG_Bot_Token env) (TG_Chat_ID env) messageId))
    as [[ok_flag] | e] eqn:Hfetch; simpl.
  - match goal with
    | |- context [h JsonBody ?l ResponseJson] =>
        destruct (h JsonBody l ResponseJson) as [[| ok] | e] eqn:Hjson
    end; simpl; destruct ok_flag; simpl;
      eexists _, _, _; rewrite <- app_assoc; simpl; (split; [reflexivity |]).
    + do 4 right. left. auto.
    + do 3 right. left. eauto.
    + do 5 right. eauto.
    + do 3 right. left. eauto.
    + do 2 right. left. eauto.
    + do 2 right. left. eauto.
  - eexists _, _, _. split; [reflexivity |]. right. left. eauto.
Qed.

(** ** The probing loop *)

Lemma probe_spec {S} (keys : list string) (fileId : string) (s : S) h log :
  exists r probed,
    run (probe keys fileId s) h log = ((r, s), log ++ probed) /\
    probe_outcome keys fileId r probed.
Proof.
  revert log. induction keys as [| key rest IH]; intros log.
  - exists (Returned (None, fileId)), []. split.
    + simpl. now rewrite app_nil_r.
    + exists [], []. repeat split; auto.
  - simpl probe. rewrite run_bind, run_await.
    destruct (h (option KvRecord) log (KvGetWithMetadata key)) as [record | e] eqn:Hans.
    + destruct (record_metadata record) as [m |] eqn:Hmeta.
      * exists (Returned (record, key)), [LKvGet key (Returned record)].
        split; [reflexivity |].
        exists [], [LKvGet key (Returned record)]. repeat split; auto.
        right. left. destruct record as [record |]; [| discriminate].
        exists key, record, m. auto.
      * destruct (IH (log ++ [entry (KvGetWithMetadata key) (Returned record)]))
          as (r & probed & Hrun & misses & final & Hp & Hmiss & Hkeys & Hend).
        exists r, (LKvGet key (Returned record) :: probed). split.
        { rewrite Hrun. now rewrite <- app_assoc. }
        exists (LKvGet key (Returned record) :: misses), final. repeat split.
        -- now rewrite Hp.
        -- simpl. now rewrite Hmeta, Hmiss.
        -- simpl. now rewrite Hkeys.
        -- destruct Hend as [(Hf & Hlen & Hr) | Hend]; [left | right; exact Hend].
           repeat split; auto. simpl. now rewrite Hlen.
    + exists (Raised e), [LKvGet key (Raised e)]. split; [reflexivity |].
      exists [], [LKvGet key (Raised e)]. repeat split; auto.
      right. right. eauto.
Qed.

(** ** Logs record what the world answered *)

Lemma answered_entry {X} (ev : Event X) h log : answered h log (entry ev (h X log ev)).
Proof. destruct ev; reflexivity. Qed.

Lemma run_answered {A} (p : Prog A) h log pre e post :
  snd (run p h log) = log ++ pre ++ e :: post -> answered h (log ++ pre) e.
Proof.
  revert log pre. induction p as [a | X ev k IH]; intros log pre; simpl.
  - intros Heq. exfalso.
    assert (Hlen : length log = length (log ++ pre ++ e :: post)) by now rewrite <- Heq.
    rewrite !length_app in Hlen. simpl in Hlen. lia.
  - intros Heq.
    destruct (run_extends (k (h X log ev)) h (log ++ [entry ev (h X log ev)])) as [calls Hc].
    destruct pre as [| e0 pre].
    + rewrite Hc, <- app_assoc in Heq. apply app_inv_head in Heq.
      simpl in Heq. injection Heq as He Hrest. rewrite app_nil_r, <- He.
      apply answered_entry.
    + assert (He0 : e0 = entry ev (h X log ev)).
      { rewrite Hc, <- app_assoc in Heq. apply app_inv_head in Heq.
        simpl in Heq. now injection Heq. }
      subst e0.
      replace (log ++ entry ev (h X log ev) :: pre)
        with ((log ++ [entry ev (h X log ev)]) ++ pre) by now rewrite <- app_assoc.
      apply (IH (h X log ev)). rewrite Heq. now rewrite <- !app_assoc.
Qed.

(** Lookups leave the store as it is. *)
Lemma kv_after_lookups store log :
  forallb is_kv_get log = true -> kv_after store log = store.
Proof.
  unfold kv_after. revert store.
  induction log as [| e log IH]; intros store Hall; simpl in *; [reflexivity |].
  apply andb_true_iff in Hall as [He Hall].
  destruct e; try discriminate. now apply IH.
Qed.

Lemma is_miss_kv_get log : forallb is_miss log = true -> forallb is_kv_get log = true.
Proof.
  induction log as [| e log IH]; simpl; [reflexivity |].
  intros Hall. apply andb_true_iff in Hall as [He Hall].
  rewrite (IH Hall). destruct e; auto; discriminate.
Qed.

(** The six candidates of an identifier without a known prefix. *)
Lemma candidateKeys_unprefixed fileId :
  hasKnownPrefix fileId = false ->
  candidateKeys fileId =
  ["img:" +:+ fileId; "vid:" +:+ fileId; "aud:" +:+ fileId;
   "doc:" +:+ fileId; "r2:" +:+ fileId; fileId].
Proof. unfold candidateKeys. intros ->. reflexivity. Qed.

Lemma candidateKeys_prefixed fileId :
  hasKnownPrefix fileId = true -> candidateKeys fileId = [fileId].
Proof. unfold candidateKeys. now intros ->. Qed.

Lemma length_append (p s : string) :
  String.length (p +:+ s) = String.length p + String.length s.
Proof. induction p as [| c p IH]; simpl; [reflexivity | now rewrite IH]. Qed.

Lemma append_longer (p s : string) : p <> "" -> p +:+ s <> s.
Proof.
  intros Hp Heq. apply (f_equal String.length) in Heq.
  rewrite length_append in Heq.
  destruct p; [now apply Hp | simpl in Heq; lia].
Qed.

Lemma candidateKeys_NoDup fileId : NoDup (candidateKeys fileId).
Proof.
  unfold candidateKeys. destruct (hasKnownPrefix fileId).
  - apply NoDup_singleton.
  - simpl. repeat (apply NoDup_cons_2); try apply NoDup_nil_2.
    all: rewrite ?not_elem_of_cons; repeat split; try apply not_elem_of_nil.
    all: try discriminate.
    all: first [ apply (append_longer "img:")
               | apply (append_longer "vid:")
               | apply (append_longer "aud:")
               | apply (append_longer "doc:")
               | apply (append_longer "r2:") ]; discriminate.
Qed.

Lemma store_world_lookup store r2 net parsed log key :
  store_world store r2 net parsed _ log (KvGetWithMetadata key)
  = Returned (kv_after store log !! key).
Proof. reflexivity. Qed.

(** In a world with a store, the loop stops at the first key of [keys]
    that holds a record with metadata; later keys are not looked up. *)
Lemma probe_store_first_hit {L} (keys : list string) (fileId : string) (s : L)
    store r2 net parsed log i ki mi :
  forallb is_kv_get log = true ->
  keys !! i = Some ki ->
  record_metadata (store !! ki) = Some mi ->
  exists n key record probed,
    n <= i /\ keys !! n = Some key /\ store !! key = Some record /\
    run (probe keys fileId s) (store_world store r2 net parsed) log
      = ((Returned (Some record, key), s), log ++ probed) /\
    map entry_key probed = map Some (take (S n) keys).
Proof.
  revert log i. induction keys as [| key rest IH]; intros log i Hlog Hi Hmeta.
  - discriminate.
  - simpl probe. rewrite run_bind, run_await. simpl entry.
    rewrite store_world_lookup, (kv_after_lookups store log Hlog).
    destruct (record_metadata (store !! key)) as [m |] eqn:Hkey.
    + destruct (store !! key) as [record |] eqn:Hrec; [| discriminate].
      exists 0, key, record, [LKvGet key (Returned (Some record))].
      repeat split; auto. lia.
    + destruct i as [| i]; simpl in Hi.
      { injection Hi as ->. congruence. }
      destruct (IH (log ++ [LKvGet key (Returned (store !! key))]) i)
        as (n & k & record & probed & Hn & Hk & Hrec & Hrun & Hkeys); auto.
      { rewrite forallb_app, Hlog. reflexivity. }
      exists (S n), k, record, (LKvGet key (Returned (store !! key)) :: probed).
      repeat split; auto; try lia.
      * rewrite Hrun. now rewrite <- app_assoc.
      * simpl. now rewrite Hkeys.
Qed.

(** ** The key resolver *)

(** C4.  For an identifier that carries no known prefix, [getRecordWithKey]
    has the six candidates img:, vid:, aud:, doc:, r2: and the bare
    identifier, in this order.  Against any world it looks up an initial
    segment of them in order, every lookup before the last one being a miss,
    and returns the record and key of the first lookup that yields a record
    with metadata; each logged lookup holds what the world answered to it.
    When the store holds records with metadata under two candidates, the key
    returned is at or before the earlier one; the later candidate is neither
    returned nor looked up. *)
Theorem resolver_probes_candidates_in_order (fileId : string) :
  hasKnownPrefix fileId = false ->
  candidateKeys fileId =
    ["img:" +:+ fileId; "vid:" +:+ fileId; "aud:" +:+ fileId;
     "doc:" +:+ fileId; "r2:" +:+ fileId; fileId] /\
  (forall h log, exists r probed,
      run (getRecordWithKey fileId tt) h log = ((r, tt), log ++ probed) /\
      probe_outcome (candidateKeys fileId) fileId r probed /\
      (forall pre e post, probed = pre ++ e :: post -> answered h (log ++ pre) e)) /\
  (forall store r2 net parsed i j ki kj mi mj,
      i < j ->
      candidateKeys fileId !! i = Some ki ->
      candidateKeys fileId !! j = Some kj ->
      record_metadata (store !! ki) = Some mi ->
      record_metadata (store !! kj) = Some mj ->
      exists n key record probed,
        run (getRecordWithKey fileId tt) (store_world store r2 net parsed) []
          = ((Returned (Some record, key), tt), probed) /\
        n <= i /\ candidateKeys fileId !! n = Some key /\
        store !! key = Some record /\
        key <> kj /\
        map entry_key probed = map Some (take (S n) (candidateKeys fileId)) /\
        Some kj ∉ map entry_key probed).
Proof.
  intros Hprefix. split; [now apply candidateKeys_unprefixed |]. split.
  - intros h log.
    destruct (probe_spec (candidateKeys fileId) fileId tt h log)
      as (r & probed & Hrun & Hout).
    exists r, probed. repeat split; auto.
    intros pre e post ->.
    apply (run_answered (getRecordWithKey fileId tt) h log pre e post).
    unfold getRecordWithKey. now rewrite Hrun.
  - intros store r2 net parsed i j ki kj mi mj Hij Hi Hj Hmi Hmj.
    destruct (probe_store_first_hit (candidateKeys fileId) fileId tt
                store r2 net parsed [] i ki mi eq_refl Hi Hmi)
      as (n & key & record & probed & Hn & Hkey & Hrec & Hrun & Hkeys).
    pose proof (candidateKeys_NoDup fileId) as Hnodup.
    exists n, key, record, probed. repeat split; auto.
    + intros ->. pose proof (NoDup_lookup _ _ _ _ Hnodup Hkey Hj). lia.
    + rewrite Hkeys. intros Hin.
      apply list_elem_of_fmap in Hin as (k & Hk & Hin).
      injection Hk as <-.
      apply list_elem_of_lookup in Hin as (m & Hm).
      pose proof (lookup_lt_Some _ _ _ Hm) as Hlt.
      rewrite length_take in Hlt.
      rewrite lookup_take_lt in Hm by lia.
      pose proof (NoDup_lookup _ _ _ _ Hnodup Hm Hj). lia.
Qed.

Lemma resolver_probes_candidates_in_order_witness :
  hasKnownPrefix "xyz" = false /\
  candidateKeys "xyz" = ["img:xyz"; "vid:xyz"; "aud:xyz"; "doc:xyz"; "r2:xyz"; "xyz"] /\
  run (getRecordWithKey "xyz" tt) network_down_world []
  = ((Returned (Some (telegram_record (JNum 7)), "img:xyz"), tt),
     [LKvGet "img:xyz" (Returned (Some (telegram_record (JNum 7))))]).
Proof.
  split; [reflexivity |].
  split; [exact (proj1 (resolver_probes_candidates_in_order "xyz" eq_refl)) |].
  vm_compute. reflexivity.
Defined.

(** C8, as worded, fails: the identifier xyz carries the empty prefix of the
    list, yet it is not looked up once as a literal key but six times. *)
Lemma single_lookup_fails_without_prefix_marker :
  carries_listed_prefix "xyz" = true /\
  snd (run (getRecordWithKey "xyz" tt) empty_world [])
  = [LKvGet "img:xyz" (Returned None); LKvGet "vid:xyz" (Returned None);
     LKvGet "aud:xyz" (Returned None); LKvGet "doc:xyz" (Returned None);
     LKvGet "r2:xyz" (Returned None); LKvGet "xyz" (Returned None)] /\
  length (snd (run (getRecordWithKey "xyz" tt) empty_world [])) <> 1.
Proof. vm_compute. repeat split; auto; discriminate. Qed.

(** C8, amended.  An identifier that carries one of the non-empty prefixes
    img:, vid:, aud:, doc:, r2: is its own and only candidate, and exactly
    one lookup is issued, for the identifier itself; an identifier that
    carries none of them has the six candidates.  For any identifier,
    when the resolver returns without a record with metadata, it returns no
    record together with the identifier, every candidate was looked up and
    missed, and the identifier is the key looked up last. *)
Theorem resolver_literal_key_and_not_found (fileId : string) (h : Handler)
    (log : list LogEntry) :
  (hasKnownPrefix fileId = true ->
   candidateKeys fileId = [fileId] /\
   exists r,
     run (getRecordWithKey fileId tt) h log
     = ((r, tt), log ++ [LKvGet fileId (h _ log (KvGetWithMetadata fileId))])) /\
  (hasKnownPrefix fileId = false ->
   candidateKeys fileId =
     ["img:" +:+ fileId; "vid:" +:+ fileId; "aud:" +:+ fileId;
      "doc:" +:+ fileId; "r2:" +:+ fileId; fileId]) /\
  (forall record key log',
     run (getRecordWithKey fileId tt) h log = ((Returned (record, key), tt), log') ->
     record_metadata record = None ->
     record = None /\ key = fileId /\
     exists probed,
       log' = log ++ probed /\
       forallb is_miss probed = true /\
       map entry_key probed = map Some (candidateKeys fileId) /\
       last (map entry_key probed) = Some (Some fileId)).
Proof.
  split; [| split].
  - intros Hprefix. split; [now apply candidateKeys_prefixed |].
    unfold getRecordWithKey. rewrite (candidateKeys_prefixed _ Hprefix).
    simpl probe. rewrite run_bind, run_await. simpl entry.
    destruct (h (option KvRecord) log (KvGetWithMetadata fileId)) as [record | e].
    + destruct (record_metadata record); eexists; reflexivity.
    + eexists; reflexivity.
  - apply candidateKeys_unprefixed.
  - intros record key log' Hrun Hmeta.
    destruct (probe_spec (candidateKeys fileId) fileId tt h log)
      as (r & probed & Hrun' & misses & final & Hp & Hmiss & Hkeys & Hend).
    unfold getRecordWithKey in Hrun. rewrite Hrun' in Hrun.
    injection Hrun as -> <-.
    destruct Hend as [(-> & Hlen & Hr) | [(k & rcd & m & _ & Hm & Hr) | (k & e & _ & Hr)]].
    + injection Hr as -> ->. rewrite app_nil_r in Hp. subst probed.
      rewrite Hlen, firstn_all in Hkeys.
      repeat split; auto. exists misses. repeat split; auto.
      rewrite Hkeys. unfold candidateKeys. destruct (hasKnownPrefix fileId); reflexivity.
    + injection Hr as -> ->. simpl in Hmeta. congruence.
    + discriminate.
Qed.

Lemma resolver_literal_key_and_not_found_witness :
  hasKnownPrefix "r2:xyz" = true /\
  candidateKeys "r2:xyz" = ["r2:xyz"] /\
  snd (run (getRecordWithKey "r2:xyz" tt) empty_world []) = [LKvGet "r2:xyz" (Returned None)].
Proof.
  split; [reflexivity |].
  destruct (proj1 (resolver_literal_key_and_not_found "r2:xyz" empty_world []) eq_refl)
    as [Hkeys [r Hrun]].
  split; [exact Hkeys |]. rewrite Hrun. reflexivity.
Defined.

(** ** Requests *)

Section Requests.

Variable decodeURIComponent : string -> option string.
Variable h : Handler.
Variable context : Context.

Let fileId := decodedFileId decodeURIComponent (params_id context).

Lemma serve_unconfigured :
  img_url (env context) = false ->
  serve decodeURIComponent h context
  = (Returned (mkResponse (error_body "KV binding img_url is not configured.") 500), []).
Proof.
  intros Himg. unfold serve, onRequest. rewrite run_try_catch, Himg. reflexivity.
Qed.

Lemma serve_resolver_raised e probes :
  img_url (env context) = true ->
  run (getRecordWithKey fileId tt) h [] = ((Raised e, tt), probes) ->
  serve decodeURIComponent h context
  = (Returned (mkResponse (error_body (message e)) 500), probes).
Proof.
  intros Himg Hres. unfold serve, onRequest.
  rewrite run_try_catch, Himg. change (negb true) with false. cbv iota.
  rewrite run_bind, run_invoke. fold fileId. rewrite Hres. reflexivity.
Qed.

Lemma serve_not_found record kvKey probes :
  img_url (env context) = true ->
  resolves decodeURIComponent h context record kvKey probes ->
  record_metadata record = None ->
  serve decodeURIComponent h context
  = (Returned (mkResponse (error_body "File metadata not found.") 404), probes).
Proof.
  intros Himg Hres Hmeta. unfold serve, onRequest.
  rewrite run_try_catch, Himg. change (negb true) with false. cbv iota.
  rewrite run_bind, run_invoke. fold fileId.
  unfold resolves in Hres. fold fileId in Hres. rewrite Hres.
  cbv beta iota. rewrite Hmeta. reflexivity.
Qed.

Lemma serve_object_store record kvKey probes metadata :
  img_url (env context) = true ->
  resolves decodeURIComponent h context record kvKey probes ->
  record_metadata record = Some metadata ->
  isR2 fileId metadata = true ->
  let key := resolveR2Key metadata kvKey fileId in
  serve decodeURIComponent h context =
  if negb (R2_BUCKET (env context)) then
    (Returned (mkResponse (error_body "R2 bucket is not configured.") 500), probes)
  else if negb (truthy key) then
    (Returned (mkResponse (error_body "Failed to resolve R2 key.") 500), probes)
  else
    match h _ probes (R2Delete key) with
    | Raised e =>
        (Returned (mkResponse (error_body (message e)) 500),
         probes ++ [LR2Delete key (Raised e)])
    | Returned u =>
        let log := probes ++ [LR2Delete key (Returned u)] in
        match h _ log (KvDelete kvKey) with
        | Raised e =>
            (Returned (mkResponse (error_body (message e)) 500),
             log ++ [LKvDelete kvKey (Raised e)])
        | Returned u' =>
            (Returned (mkResponse (r2_body fileId key kvKey) 200),
             log ++ [LKvDelete kvKey (Returned u')])
        end
    end.
Proof.
  intros Himg Hres Hmeta Hr2 key. unfold serve, onRequest.
  rewrite run_try_catch, Himg. change (negb true) with false. cbv iota.
  rewrite run_bind, run_invoke. fold fileId.
  unfold resolves in Hres. fold fileId in Hres. rewrite Hres.
  cbv beta iota. rewrite Hmeta, Hr2. fold key.
  destruct (R2_BUCKET (env context)); unfold negb at 1; cbv iota; [| reflexivity].
  destruct (truthy key); unfold negb at 1; cbv iota; [| reflexivity].
  rewrite run_bind, run_await. simpl entry.
  destruct (h unit probes (R2Delete key)) as [u | e]; [| reflexivity].
  cbv beta iota zeta. rewrite run_bind, run_await. simpl entry.
  destruct (h unit (probes ++ [LR2Delete key (Returned u)]) (KvDelete kvKey)); reflexivity.
Qed.

Lemma serve_messaging record kvKey probes metadata :
  img_url (env context) = true ->
  resolves decodeURIComponent h context record kvKey probes ->
  record_metadata record = Some metadata ->
  isR2 fileId metadata = false ->
  let mid := telegramMessageId metadata in
  exists deleted remote,
    (if truthy mid
     then exists data,
         run (deleteTelegramMessage mid (env context) (BodyValue (JBool false))) h probes
         = ((Returned deleted, data), probes ++ remote)
     else deleted = JBool false /\ remote = []) /\
    let l := mkLocals deleted (truthy mid) None in
    let log := probes ++ remote in
    serve decodeURIComponent h context =
    match h _ log (KvDelete kvKey) with
    | Returned u =>
        (Returned (mkResponse (telegram_body fileId kvKey l) 200),
         log ++ [LKvDelete kvKey (Returned u)])
    | Raised e =>
        (Returned (mkResponse (error_body (message e)) 500),
         log ++ [LKvDelete kvKey (Raised e)])
    end.
Proof.
  intros Himg Hres Hmeta Hr2 mid. unfold serve, onRequest.
  rewrite run_try_catch, Himg. change (negb true) with false. cbv iota.
  rewrite run_bind, run_invoke. fold fileId.
  unfold resolves in Hres. fold fileId in Hres. rewrite Hres.
  cbv beta iota. rewrite Hmeta, Hr2. fold mid.
  destruct (truthy mid) eqn:Hmid.
  - destruct (deleteTelegramMessage_cases mid (env context) (BodyValue (JBool false)) h probes)
      as (deleted & data & remote & Hdel & _).
    exists deleted, remote. split; [eauto |].
    unfold set_telegramDeleteAttempted, set_telegramDeleted, set_telegramDeleteError.
    autorewrite with run_db. rewrite Hdel. cbv beta iota zeta.
    autorewrite with run_db. cbv beta iota zeta.
    destruct (h unit (probes ++ remote) (KvDelete kvKey)); reflexivity.
  - exists (JBool false), []. split; [auto |].
    autorewrite with run_db. cbv beta iota zeta. rewrite app_nil_r.
    destruct (h unit probes (KvDelete kvKey)); reflexivity.
Qed.

End Requests.

Lemma issued_app kind l1 l2 : issued kind (l1 ++ l2) = issued kind l1 + issued kind l2.
Proof. unfold issued. now rewrite List.filter_app, length_app. Qed.

Lemma issued_none kind other log :
  forallb other log = true ->
  (forall e, other e = true -> kind e = false) ->
  issued kind log = 0.
Proof.
  intros Hall Hdisj. unfold issued.
  induction log as [| e log IH]; simpl in *; [reflexivity |].
  apply andb_true_iff in Hall as [He Hall].
  rewrite (Hdisj e He). now apply IH.
Qed.

Lemma lookups_no_kv_delete e : is_kv_get e = true -> is_kv_delete e = false.
Proof. now destruct e. Qed.
Lemma lookups_no_r2_delete e : is_kv_get e = true -> is_r2_delete e = false.
Proof. now destruct e. Qed.
Lemma lookups_no_transport e : is_kv_get e = true -> is_transport e = false.
Proof. now destruct e. Qed.
Lemma transport_no_kv_delete e : is_transport e = true -> is_kv_delete e = false.
Proof. now destruct e. Qed.
Lemma transport_no_r2_delete e : is_transport e = true -> is_r2_delete e = false.
Proof. now destruct e. Qed.

Lemma probe_outcome_lookups keys fileId r probed :
  probe_outcome keys fileId r probed -> forallb is_kv_get probed = true.
Proof.
  intros (misses & final & -> & Hmiss & _ & Hend).
  rewrite forallb_app, (is_miss_kv_get _ Hmiss).
  destruct Hend as [(-> & _) | [(k & rcd & m & -> & _) | (k & e & -> & _)]]; reflexivity.
Qed.

Lemma resolver_lookups_only fileId h r log :
  run (getRecordWithKey fileId tt) h [] = ((r, tt), log) ->
  forallb is_kv_get log = true.
Proof.
  intros Hrun.
  destruct (probe_spec (candidateKeys fileId) fileId tt h [])
    as (r' & probed & Hrun' & Hout).
  unfold getRecordWithKey in Hrun. rewrite Hrun' in Hrun.
  injection Hrun as _ <-. simpl. eapply probe_outcome_lookups, Hout.
Qed.

(** ** The remote deletion attempt *)

Lemma remote_attempt_transport_only (messageId : jsval) (env : Env) (data : JsonBody)
    (h : Handler) (log : list LogEntry) :
  exists v data' calls,
    run (deleteTelegramMessage messageId env data) h log
    = ((Returned v, data'), log ++ calls) /\
    forallb is_transport calls = true.
Proof.
  destruct (deleteTelegramMessage_cases messageId env data h log)
    as (v & data' & calls & Hrun & Hcases).
  exists v, data', calls. split; [exact Hrun |].
  destruct Hcases as
    [(_ & -> & _) | [(_ & e & -> & _) | [(_ & rsp & e & -> & _) |
    [(_ & parsed & -> & _) | [(_ & -> & _) | (_ & ok & -> & _)]]]]]; reflexivity.
Qed.

(** The result and the calls of [deleteTelegramMessage], read off what the
    world answers to the [fetch] and to the [response.json()] after it. *)
Lemma deleteTelegramMessage_by_answers
    (messageId : jsval) (env : Env) (data : JsonBody) (h : Handler) (log : list LogEntry) :
  let token := TG_Bot_Token env in
  let chat := TG_Chat_ID env in
  let credentials := truthy messageId && truthy token && truthy chat in
  let fetched := h _ log (Fetch token chat messageId) in
  let parsed_after response :=
    h _ (log ++ [LFetch token chat messageId (Returned response)]) ResponseJson in
  exists data',
    run (deleteTelegramMessage messageId env data) h log
    = ((Returned
          (if credentials then
             match fetched with
             | Returned response =>
                 if resp_ok response then
                   match parsed_after response with
                   | Returned (BodyValue ok) => ok
                   | _ => JBool false
                   end
                 else JBool false
             | Raised _ => JBool false
             end
           else JBool false), data'),
       log ++ (if credentials then
                 match fetched with
                 | Returned response =>
                     [LFetch token chat messageId (Returned response);
                      LJson (parsed_after response)]
                 | Raised e => [LFetch token chat messageId (Raised e)]
                 end
               else [])).
Proof.
  intros token chat credentials fetched parsed_after.
  subst token chat credentials fetched parsed_after.
  unfold deleteTelegramMessage.
  destruct (truthy messageId); simpl;
    [destruct (truthy (TG_Bot_Token env)); simpl;
     [destruct (truthy (TG_Chat_ID env)); simpl |] |].
  2-4: exists data; now rewrite app_nil_r.
  unfold try_catch, bind, await, modify, get_locals, read_ok, ret, throw. simpl.
  destruct (h FetchResponse log (Fetch (TG_Bot_Token env) (TG_Chat_ID env) messageId))
    as [[ok_flag] | e]; simpl.
  - match goal with
    | |- context [h JsonBody ?l ResponseJson] =>
        destruct (h JsonBody l ResponseJson) as [[| ok] | e]
    end; simpl; destruct ok_flag; simpl; eexists; rewrite <- app_assoc; reflexivity.
  - eexists; reflexivity.
Qed.

(** C6.  [deleteTelegramMessage] never raises.  Its result is truthy if and
    only if the message reference and both credentials are there, the world
    answers the [fetch] with a response whose [ok] flag is set, and answers
    the [response.json()] that follows with a body that carries a truthy
    [ok]; the result is then that [ok].  In every other case -- message
    reference or credentials missing, [fetch] raising, an HTTP status that
    is not ok, a body that does not parse, a null body, an absent or
    negative [ok] -- the result is falsy; it is the value false itself
    except when the body's own falsy [ok] is handed back.  The calls are
    the [fetch], answered by the world, and after a [fetch] that returned
    the [response.json()], answered by the world. *)
Theorem remote_deletion_succeeds_iff_acknowledged
    (messageId : jsval) (env : Env) (data : JsonBody) (h : Handler) (log : list LogEntry) :
  let token := TG_Bot_Token env in
  let chat := TG_Chat_ID env in
  let credentials := truthy messageId && truthy token && truthy chat in
  let fetched := h _ log (Fetch token chat messageId) in
  let parsed_after response :=
    h _ (log ++ [LFetch token chat messageId (Returned response)]) ResponseJson in
  exists v data' calls,
    run (deleteTelegramMessage messageId env data) h log
    = ((Returned v, data'), log ++ calls) /\
    forallb is_transport calls = true /\
    (truthy v = true <->
     exists ok,
       calls = [LFetch token chat messageId (Returned (mkFetchResponse true));
                LJson (Returned (BodyValue ok))]
       /\ truthy ok = true) /\
    (v = JBool false \/
     exists ok,
       calls = [LFetch token chat messageId (Returned (mkFetchResponse true));
                LJson (Returned (BodyValue ok))]
       /\ v = ok) /\
    (calls = [] <-> credentials = false) /\
    (truthy v = true <->
     credentials = true /\
     fetched = Returned (mkFetchResponse true) /\
     exists ok,
       parsed_after (mkFetchResponse true) = Returned (BodyValue ok) /\ truthy ok = true) /\
    (forall ok,
       credentials = true ->
       fetched = Returned (mkFetchResponse true) ->
       parsed_after (mkFetchResponse true) = Returned (BodyValue ok) ->
       v = ok) /\
    calls = (if credentials then
               match fetched with
               | Returned response =>
                   [LFetch token chat messageId (Returned response);
                    LJson (parsed_after response)]
               | Raised e => [LFetch token chat messageId (Raised e)]
               end
             else []).
Proof.
  intros token chat credentials fetched parsed_after.
  destruct (deleteTelegramMessage_by_answers messageId env data h log) as [data' Hrun].
  cbv zeta in Hrun. fold token chat in Hrun. fold credentials in Hrun.
  fold fetched in Hrun.
  eexists _, data', _. split; [exact Hrun |].
  clear Hrun. clearbody credentials fetched. unfold parsed_after. clear parsed_after.
  destruct credentials.
  2: { simpl. repeat split; auto; try discriminate;
       first [ congruence
             | intro Hack; decompose [and ex] Hack; congruence
             | intros; congruence ]. }
  destruct fetched as [[ok_flag] | e].
  2: { simpl. repeat split; auto; try discriminate;
       first [ congruence
             | intro Hack; decompose [and ex] Hack; congruence
             | intros; congruence ]. }
  destruct ok_flag; cbn [resp_ok].
  2: { simpl. repeat split; auto; try discriminate;
       first [ congruence
             | intro Hack; decompose [and ex] Hack; congruence
             | intros; congruence ]. }
  destruct (h JsonBody
              (log ++ [LFetch token chat messageId (Returned (mkFetchResponse true))])
              ResponseJson) as [[| ok] | e].
  - simpl. repeat split; auto; try discriminate;
      first [ congruence
            | intro Hack; decompose [and ex] Hack; congruence
            | intros; congruence ].
  - split; [reflexivity |].
    assert (Hlog_iff :
      truthy ok = true <->
      exists ok',
        [LFetch token chat messageId (Returned (mkFetchResponse true));
         LJson (Returned (BodyValue ok))]
        = [LFetch token chat messageId (Returned (mkFetchResponse true));
           LJson (Returned (BodyValue ok'))]
        /\ truthy ok' = true).
    { split; [intros Hok; eauto |].
      intros (ok' & Heq & Hok). injection Heq as <-. exact Hok. }
    assert (Hworld_iff :
      truthy ok = true <->
      true = true /\
      Returned (mkFetchResponse true) = Returned (mkFetchResponse true) /\
      exists ok', @Returned JsonBody (BodyValue ok) = Returned (BodyValue ok')
                  /\ truthy ok' = true).
    { split; [intros Hok; repeat split; eauto |].
      intros (_ & _ & ok' & Heq & Hok). injection Heq as <-. exact Hok. }
    split; [exact Hlog_iff |].
    split; [right; eauto |].
    split; [split; discriminate |].
    split; [exact Hworld_iff |].
    split; [| reflexivity].
    intros ok' _ _ Heq. now injection Heq as <-.
  - simpl. repeat split; auto; try discriminate;
      first [ congruence
            | intro Hack; decompose [and ex] Hack; congruence
            | intros; congruence ].
Qed.

(** An instance: a world that acknowledges, and the same world with the
    acknowledgment gone from the body. *)
Lemma remote_deletion_succeeds_iff_acknowledged_witness :
  fst (fst (run (deleteTelegramMessage (JNum 5) configured_env (BodyValue (JBool false)))
              empty_world []))
  = Returned (JBool true) /\
  fst (fst (run (deleteTelegramMessage (JNum 5) configured_env (BodyValue (JBool false)))
              unacknowledged_world []))
  = Returned JUndefined.
Proof.
  split.
  - destruct (remote_deletion_succeeds_iff_acknowledged (JNum 5) configured_env
                (BodyValue (JBool false)) empty_world [])
      as (v & data' & calls & Hrun & _ & _ & _ & _ & _ & Hvalue & _).
    rewrite Hrun. simpl. f_equal.
    exact (Hvalue (JBool true) eq_refl eq_refl eq_refl).
  - destruct (remote_deletion_succeeds_iff_acknowledged (JNum 5) configured_env
                (BodyValue (JBool false)) unacknowledged_world [])
      as (v & data' & calls & Hrun & _ & _ & _ & _ & _ & Hvalue & _).
    rewrite Hrun. simpl. f_equal.
    exact (Hvalue JUndefined eq_refl eq_refl eq_refl).
Defined.

(** ** The messaging path *)

(** The log of a request on the messaging branch: lookups, then calls of
    the transport, then the one delete on the key-value store. *)
Lemma metadata_delete_once_after_messaging
    (decodeURIComponent : string -> option string) (h : Handler) (context : Context)
    (record : option KvRecord) (kvKey : string) (probes : list LogEntry)
    (metadata : Metadata) :
  img_url (env context) = true ->
  resolves decodeURIComponent h context record kvKey probes ->
  record_metadata record = Some metadata ->
  isR2 (decodedFileId decodeURIComponent (params_id context)) metadata = false ->
  exists remote,
    snd (serve decodeURIComponent h context)
    = probes ++ remote ++ [LKvDelete kvKey (h _ (probes ++ remote) (KvDelete kvKey))] /\
    forallb is_transport remote = true /\
    issued is_kv_delete (snd (serve decodeURIComponent h context)) = 1.
Proof.
  intros Himg Hres Hmeta Hr2.
  destruct (serve_messaging decodeURIComponent h context record kvKey probes metadata
              Himg Hres Hmeta Hr2) as (deleted & remote & Hattempt & Hserve).
  cbv zeta in Hserve.
  pose proof (resolver_lookups_only _ _ _ _ Hres) as Hprobes.
  assert (Htransport : forallb is_transport remote = true).
  { destruct (truthy (telegramMessageId metadata)).
    - destruct Hattempt as [data Hdel].
      destruct (remote_attempt_transport_only (telegramMessageId metadata) (env context)
                  (BodyValue (JBool false)) h probes) as (v & data' & calls & Hrun & Hcalls).
      rewrite Hrun in Hdel. injection Hdel as _ _ Heq.
      apply app_inv_head in Heq. now subst calls.
    - now destruct Hattempt as [_ ->]. }
  exists remote.
  assert (Hlog : snd (serve decodeURIComponent h context)
                 = probes ++ remote ++ [LKvDelete kvKey (h _ (probes ++ remote) (KvDelete kvKey))]).
  { rewrite Hserve.
    destruct (h unit (probes ++ remote) (KvDelete kvKey)); simpl; now rewrite <- app_assoc. }
  repeat split; auto.
  rewrite Hlog, !issued_app.
  rewrite (issued_none is_kv_delete is_kv_get probes Hprobes lookups_no_kv_delete).
  rewrite (issued_none is_kv_delete is_transport remote Htransport transport_no_kv_delete).
  reflexivity.
Qed.

(** C1.  When the resolved record is classified to the messaging backend,
    the log of the request is the lookups of the resolver, then the calls of
    the remote deletion attempt, then one delete of the resolved key on the
    key-value store, and nothing else: the delete is the only one in the log
    and it is answered on the log that holds the whole attempt.  This is so
    whether the attempt was skipped (no message reference, or credentials
    missing), or [fetch] raised, or the attempt ran to a response whatever
    the response and its body were.  The construct itself gives the same for
    any attempt, raising or not: the cleanup delete of the try/finally is
    issued once, on the log the attempt left. *)
Theorem metadata_delete_once_after_remote_attempt
    (decodeURIComponent : string -> option string) (h : Handler) (context : Context)
    (record : option KvRecord) (kvKey : string) (probes : list LogEntry)
    (metadata : Metadata) :
  let fileId := decodedFileId decodeURIComponent (params_id context) in
  let mid := telegramMessageId metadata in
  let token := TG_Bot_Token (env context) in
  let chat := TG_Chat_ID (env context) in
  img_url (env context) = true ->
  resolves decodeURIComponent h context record kvKey probes ->
  record_metadata record = Some metadata ->
  isR2 fileId metadata = false ->
  exists remote,
    snd (serve decodeURIComponent h context)
    = probes ++ remote ++ [LKvDelete kvKey (h _ (probes ++ remote) (KvDelete kvKey))] /\
    forallb is_kv_get probes = true /\
    forallb is_transport remote = true /\
    issued is_kv_delete (snd (serve decodeURIComponent h context)) = 1 /\
    ((truthy mid = false /\ remote = [])
     \/ (truthy mid = true /\ truthy token && truthy chat = false /\ remote = [])
     \/ (exists e, remote = [LFetch token chat mid (Raised e)])
     \/ (exists response parsed,
           remote = [LFetch token chat mid (Returned response); LJson parsed])) /\
    (forall (attempt : JS Locals unit) (handler : JsError -> JS Locals unit) l log,
       exists r l' log',
         run (try_catch attempt handler l) h log = ((r, l'), log') /\
         snd (run (try_finally (try_catch attempt handler) (await (KvDelete kvKey)) l) h log)
         = log' ++ [LKvDelete kvKey (h _ log' (KvDelete kvKey))]).
Proof.
  intros fileId mid token chat Himg Hres Hmeta Hr2.
  destruct (serve_messaging decodeURIComponent h context record kvKey probes metadata
              Himg Hres Hmeta Hr2) as (deleted & remote & Hattempt & Hserve).
  fold mid in Hattempt. cbv zeta in Hserve.
  pose proof (resolver_lookups_only _ _ _ _ Hres) as Hprobes.
  assert (Hremote :
    forallb is_transport remote = true /\
    ((truthy mid = false /\ remote = [])
     \/ (truthy mid = true /\ truthy token && truthy chat = false /\ remote = [])
     \/ (exists e, remote = [LFetch token chat mid (Raised e)])
     \/ (exists response parsed,
           remote = [LFetch token chat mid (Returned response); LJson parsed]))).
  { destruct (truthy mid) eqn:Hmid.
    - destruct Hattempt as [data Hdel].
      destruct (deleteTelegramMessage_cases mid (env context) (BodyValue (JBool false)) h probes)
        as (v & data' & calls & Hrun & Hcases).
      rewrite Hrun in Hdel. injection Hdel as _ _ Hcalls.
      apply app_inv_head in Hcalls. subst calls.
      rewrite Hmid in Hcases. simpl in Hcases. fold token chat in Hcases.
      destruct Hcases as
        [(Hc & -> & _) | [(_ & e & -> & _) | [(_ & rsp & e & -> & _) |
        [(_ & parsed & -> & _) | [(_ & -> & _) | (_ & ok & -> & _)]]]]];
        (split; [reflexivity |]); eauto 10.
    - destruct Hattempt as [_ ->]. split; [reflexivity | auto]. }
  destruct Hremote as [Htransport Hshape].
  exists remote.
  assert (Hlog : snd (serve decodeURIComponent h context)
                 = probes ++ remote ++ [LKvDelete kvKey (h _ (probes ++ remote) (KvDelete kvKey))]).
  { rewrite Hserve.
    destruct (h unit (probes ++ remote) (KvDelete kvKey)); simpl; now rewrite <- app_assoc. }
  split; [exact Hlog |]. split; [exact Hprobes |]. split; [exact Htransport |].
  split; [| split; [exact Hshape |]].
  - rewrite Hlog, !issued_app.
    rewrite (issued_none is_kv_delete is_kv_get probes Hprobes lookups_no_kv_delete).
    rewrite (issued_none is_kv_delete is_transport remote Htransport transport_no_kv_delete).
    reflexivity.
  - intros attempt handler l log.
    apply (try_finally_cleanup_once (try_catch attempt handler) (KvDelete kvKey)).
Qed.

(** ** The object-store path *)

(** C2.  When the resolved record is classified to the object store, the
    binding is configured and a physical key was resolved, the first call
    after the lookups is the delete on the object store.  If it raises, no
    delete on the key-value store is issued, any store is left as it was, and
    the response is success:false at status 500.  If it returns, the delete
    of the resolved key on the key-value store is the next and last call. *)
Theorem object_store_delete_gates_metadata_delete
    (decodeURIComponent : string -> option string) (h : Handler) (context : Context)
    (record : option KvRecord) (kvKey : string) (probes : list LogEntry)
    (metadata : Metadata) :
  let fileId := decodedFileId decodeURIComponent (params_id context) in
  let key := resolveR2Key metadata kvKey fileId in
  let response := fst (serve decodeURIComponent h context) in
  let log := snd (serve decodeURIComponent h context) in
  img_url (env context) = true ->
  resolves decodeURIComponent h context record kvKey probes ->
  record_metadata record = Some metadata ->
  isR2 fileId metadata = true ->
  R2_BUCKET (env context) = true ->
  truthy key = true ->
  match h _ probes (R2Delete key) with
  | Raised e =>
      log = probes ++ [LR2Delete key (Raised e)] /\
      issued is_kv_delete log = 0 /\
      (forall store, kv_after store log = store) /\
      exists r, response = Returned r /\
                field "success" (body r) = Some (JBool false) /\
                field "error" (body r) = Some (JStr (message e)) /\
                status r = 500%Z
  | Returned u =>
      let after_payload := probes ++ [LR2Delete key (Returned u)] in
      log = after_payload ++ [LKvDelete kvKey (h _ after_payload (KvDelete kvKey))] /\
      issued is_kv_delete log = 1 /\
      issued is_r2_delete log = 1
  end.
Proof.
  intros fileId key response log Himg Hres Hmeta Hr2 Hbucket Hkey.
  pose proof (serve_object_store decodeURIComponent h context record kvKey probes metadata
                Himg Hres Hmeta Hr2) as Hserve.
  cbv zeta in Hserve. fold fileId key in Hserve.
  rewrite Hbucket, Hkey in Hserve. unfold negb in Hserve.
  pose proof (resolver_lookups_only _ _ _ _ Hres) as Hprobes.
  pose proof (issued_none is_kv_delete is_kv_get probes Hprobes lookups_no_kv_delete) as Hkv.
  pose proof (issued_none is_r2_delete is_kv_get probes Hprobes lookups_no_r2_delete) as Hr2d.
  subst response log.
  destruct (h unit probes (R2Delete key)) as [u | e].
  - cbv zeta.
    destruct (h unit (probes ++ [LR2Delete key (Returned u)]) (KvDelete kvKey));
      rewrite Hserve; simpl fst; simpl snd; rewrite !issued_app, Hkv, Hr2d;
      repeat split; reflexivity.
  - rewrite Hserve. simpl fst. simpl snd. rewrite issued_app, Hkv.
    repeat split.
    + intros store. unfold kv_after. rewrite fold_left_app. simpl.
      apply (kv_after_lookups store probes Hprobes).
    + eexists. repeat split.
Qed.

(** ** Not found *)

(** When every lookup of a key of [keys] is answered by a miss, the loop
    looks all of them up and returns no record, with the identifier. *)
Lemma probe_all_miss {L} (keys : list string) (fileId : string) (s : L)
    (h : Handler) (log : list LogEntry) :
  (forall log' key, key ∈ keys ->
     exists record, h _ log' (KvGetWithMetadata key) = Returned record /\
                    record_metadata record = None) ->
  exists probed,
    run (probe keys fileId s) h log = ((Returned (None, fileId), s), log ++ probed) /\
    forallb is_miss probed = true /\
    map entry_key probed = map Some keys.
Proof.
  revert log. induction keys as [| key rest IH]; intros log Hmiss.
  - exists []. simpl. now rewrite app_nil_r.
  - destruct (Hmiss log key) as (record & Hans & Hmeta); [left |].
    destruct (IH (log ++ [LKvGet key (Returned record)])) as (probed & Hrun & Hall & Hkeys).
    { intros log' k Hk. apply Hmiss. now right. }
    exists (LKvGet key (Returned record) :: probed).
    simpl probe. rewrite run_bind, run_await, Hans. simpl entry. cbv beta iota.
    rewrite Hmeta, Hrun, <- app_assoc. simpl. rewrite Hmeta, Hall, Hkeys. auto.
Qed.

(** C3.  When the key-value binding is configured and every lookup of a
    candidate key of the identifier comes back without a record with
    metadata, the response is success:false at status 404, and the log holds
    the lookups of the candidates and nothing else: no delete on the
    key-value store, none on the object store, no call of the messaging
    transport, and any store is left as it was. *)
Theorem not_found_reports_404_without_mutation
    (decodeURIComponent : string -> option string) (h : Handler) (context : Context) :
  let fileId := decodedFileId decodeURIComponent (params_id context) in
  let log := snd (serve decodeURIComponent h context) in
  img_url (env context) = true ->
  (forall log' key, key ∈ candidateKeys fileId ->
     exists record, h _ log' (KvGetWithMetadata key) = Returned record /\
                    record_metadata record = None) ->
  fst (serve decodeURIComponent h context)
  = Returned (mkResponse [("success", JBool false); ("error", JStr "File metadata not found.")]
                         404) /\
  map entry_key log = map Some (candidateKeys fileId) /\
  forallb is_kv_get log = true /\
  issued is_kv_delete log = 0 /\
  issued is_r2_delete log = 0 /\
  issued is_transport log = 0 /\
  (forall store, kv_after store log = store).
Proof.
  intros fileId log Himg Hmiss. subst log.
  destruct (probe_all_miss (candidateKeys fileId) fileId tt h [] Hmiss)
    as (probed & Hrun & Hall & Hkeys).
  simpl in Hrun.
  rewrite (serve_not_found decodeURIComponent h context None fileId probed Himg Hrun eq_refl).
  pose proof (is_miss_kv_get _ Hall) as Hget.
  simpl fst. simpl snd. repeat split; auto.
  - apply (issued_none _ _ _ Hget lookups_no_kv_delete).
  - apply (issued_none _ _ _ Hget lookups_no_r2_delete).
  - apply (issued_none _ _ _ Hget lookups_no_transport).
  - intros store. now apply kv_after_lookups.
Qed.

(** ** Classification *)

Lemma strict_eq_str_spec v lit : strict_eq_str v lit = true <-> v = JStr lit.
Proof.
  destruct v; simpl; try (split; intros; discriminate).
  rewrite String.eqb_eq. split; [now intros -> | now intros [= ->]].
Qed.

Lemma isR2_spec fileId metadata :
  isR2 fileId metadata = true <->
  startsWith fileId "r2:" = true \/ storageType metadata = JStr "r2"
  \/ storage metadata = JStr "r2".
Proof.
  unfold isR2. rewrite !orb_true_iff, !strict_eq_str_spec. tauto.
Qed.

(** C7.  For a request whose record was resolved, the object-store branch
    is taken if and only if the identifier starts with r2: or the record's
    [storageType] is the string r2 or its [storage] is the string r2.  In
    that case the messaging transport is never called and a delete on the
    key-value store only ever follows a delete on the object store.  In
    every other case the messaging branch is taken: the object store is
    never called and the delete on the key-value store is issued. *)
Theorem classification_object_store_iff
    (decodeURIComponent : string -> option string) (h : Handler) (context : Context)
    (record : option KvRecord) (kvKey : string) (probes : list LogEntry)
    (metadata : Metadata) :
  let fileId := decodedFileId decodeURIComponent (params_id context) in
  let log := snd (serve decodeURIComponent h context) in
  let object_store :=
    startsWith fileId "r2:" = true \/ storageType metadata = JStr "r2"
    \/ storage metadata = JStr "r2" in
  img_url (env context) = true ->
  resolves decodeURIComponent h context record kvKey probes ->
  record_metadata record = Some metadata ->
  (object_store <-> isR2 fileId metadata = true) /\
  (object_store <->
   issued is_transport log = 0 /\ issued is_kv_delete log <= issued is_r2_delete log) /\
  (~ object_store <->
   issued is_r2_delete log = 0 /\ issued is_kv_delete log = 1).
Proof.
  intros fileId log object_store Himg Hres Hmeta.
  assert (Hspec : object_store <-> isR2 fileId metadata = true)
    by (symmetry; apply isR2_spec).
  pose proof (resolver_lookups_only _ _ _ _ Hres) as Hprobes.
  pose proof (issued_none is_kv_delete is_kv_get probes Hprobes lookups_no_kv_delete) as Hkv.
  pose proof (issued_none is_r2_delete is_kv_get probes Hprobes lookups_no_r2_delete) as Hr2d.
  pose proof (issued_none is_transport is_kv_get probes Hprobes lookups_no_transport) as Htr.
  split; [exact Hspec |].
  destruct (isR2 fileId metadata) eqn:Hr2.
  - assert (Hpath : issued is_transport log = 0 /\
                    issued is_kv_delete log <= issued is_r2_delete log).
    { subst log.
      rewrite (serve_object_store decodeURIComponent h context record kvKey probes metadata
                 Himg Hres Hmeta Hr2).
      cbv zeta. fold fileId.
      destruct (R2_BUCKET (env context)); unfold negb at 1;
        [| simpl snd; rewrite Hkv, Htr; split; [reflexivity | lia]].
      destruct (truthy (resolveR2Key metadata kvKey fileId)); unfold negb at 1;
        [| simpl snd; rewrite Hkv, Htr; split; [reflexivity | lia]].
      destruct (h unit probes (R2Delete _)) as [u | e];
        [| simpl snd; rewrite !issued_app, Hkv, Htr, Hr2d; unfold issued; simpl; split; lia].
      destruct (h unit (probes ++ _) (KvDelete kvKey));
        simpl snd; rewrite !issued_app, Hkv, Htr, Hr2d; unfold issued; simpl; split; lia. }
    split.
    + split; [intros _; exact Hpath | intros _; now apply Hspec].
    + split; [intros Hno; exfalso; apply Hno; now apply Hspec |].
      intros [Hzero Hone]. destruct Hpath as [_ Hle]. lia.
  - destruct (metadata_delete_once_after_messaging decodeURIComponent h context
                record kvKey probes metadata Himg Hres Hmeta Hr2)
      as (remote & Hlog & Htransport & Hone).
    fold log in Hlog, Hone.
    assert (Hnone : issued is_r2_delete log = 0).
    { rewrite Hlog, !issued_app, Hr2d.
      rewrite (issued_none is_r2_delete is_transport remote Htransport transport_no_r2_delete).
      reflexivity. }
    split.
    + split; [intros Hyes; apply Hspec in Hyes; discriminate |].
      intros [_ Hle]. lia.
    + split; [intros _; auto |].
      intros _ Hyes. apply Hspec in Hyes. discriminate.
Qed.

(** ** Physical-key resolution *)

Lemma resolveR2Key_first_non_empty metadata kvKey fileId :
  first_non_empty (physical_key_candidates metadata kvKey fileId)
  = if truthy (resolveR2Key metadata kvKey fileId)
    then Some (resolveR2Key metadata kvKey fileId)
    else None.
Proof.
  unfold resolveR2Key, physical_key_candidates, first_non_empty, js_or.
  generalize (slice 3 kvKey) (slice 3 fileId). intros stripped_key stripped_id.
  destruct (truthy (r2Key metadata)) eqn:Hexplicit;
    destruct (startsWith kvKey "r2:"); destruct (startsWith fileId "r2:");
    simpl; rewrite ?Hexplicit; try reflexivity;
      try (destruct (String.eqb stripped_key "") eqn:Hkv; simpl; rewrite ?Hkv; simpl);
      try reflexivity.
  all: match goal with
       | |- context [String.eqb ?x ""] => destruct (String.eqb x ""); reflexivity
       end.
Qed.

(** A store holding [record] under the key r2:abc123, with collaborators
    that do not fail: the deletion of identifier r2:abc123. *)
Lemma r2_abc123_scenario (decodeURIComponent : string -> option string) (context : Context)
    (store : gmap string KvRecord) (record : KvRecord) (metadata : Metadata)
    (net : outcome FetchResponse) (parsed : outcome JsonBody) :
  decodedFileId decodeURIComponent (params_id context) = "r2:abc123" ->
  img_url (env context) = true ->
  R2_BUCKET (env context) = true ->
  store !! "r2:abc123" = Some record ->
  kv_metadata record = Some metadata ->
  truthy (r2Key metadata) = false ->
  let world := store_world store (fun _ => Returned tt) net parsed in
  let log := [LKvGet "r2:abc123" (Returned (Some record));
              LR2Delete (JStr "abc123") (Returned tt);
              LKvDelete "r2:abc123" (Returned tt)] in
  resolveR2Key metadata "r2:abc123" "r2:abc123" = JStr "abc123" /\
  serve decodeURIComponent world context
  = (Returned (mkResponse
                 [("success", JBool true); ("message", JStr "Deleted from R2 and KV.");
                  ("fileId", JStr "r2:abc123"); ("r2Key", JStr "abc123");
                  ("kvKey", JStr "r2:abc123")] 200), log) /\
  kv_after store log !! "r2:abc123" = None.
Proof.
  intros Hid Himg Hbucket Hstore Hmeta Hexplicit world log.
  assert (Hkey : resolveR2Key metadata "r2:abc123" "r2:abc123" = JStr "abc123").
  { unfold resolveR2Key, js_or. rewrite Hexplicit. reflexivity. }
  assert (Hres : resolves decodeURIComponent world context (Some record) "r2:abc123"
                   [LKvGet "r2:abc123" (Returned (Some record))]).
  { unfold resolves. rewrite Hid. unfold getRecordWithKey.
    change (candidateKeys "r2:abc123") with ["r2:abc123"].
    simpl probe. rewrite run_bind, run_await. unfold world.
    rewrite store_world_lookup. change (kv_after store []) with store.
    rewrite Hstore. simpl. rewrite Hmeta. reflexivity. }
  split; [exact Hkey |]. split.
  - rewrite (serve_object_store decodeURIComponent world context (Some record) "r2:abc123"
               _ metadata Himg Hres Hmeta).
    + cbv zeta. rewrite Hid, Hkey, Hbucket. reflexivity.
    + rewrite Hid. reflexivity.
  - subst log. unfold kv_after. simpl. apply lookup_delete_eq.
Qed.

(** C5.  On the object-store branch the physical key is [resolveR2Key]:
    the first non-empty of the record's [r2Key], the Storage Key stripped of
    r2: when it carries it, and the identifier stripped of r2: when it
    carries it, the raw identifier otherwise; it is empty exactly when none
    of these is non-empty.  The binding being configured, a non-empty key is
    the one the delete on the object store is issued for, right after the
    lookups; with an empty key nothing is deleted and the request fails at
    status 500.  For identifier r2:abc123 and a record without [r2Key]
    stored under r2:abc123, the physical key is abc123, the object is
    deleted, then the key r2:abc123 is deleted from the store, and the
    response is the success response. *)
Theorem physical_key_first_non_empty
    (decodeURIComponent : string -> option string) (h : Handler) (context : Context)
    (record : option KvRecord) (kvKey : string) (probes : list LogEntry)
    (metadata : Metadata) :
  let fileId := decodedFileId decodeURIComponent (params_id context) in
  let key := resolveR2Key metadata kvKey fileId in
  let log := snd (serve decodeURIComponent h context) in
  first_non_empty (physical_key_candidates metadata kvKey fileId)
  = (if truthy key then Some key else None) /\
  (img_url (env context) = true ->
   resolves decodeURIComponent h context record kvKey probes ->
   record_metadata record = Some metadata ->
   isR2 fileId metadata = true ->
   R2_BUCKET (env context) = true ->
   (truthy key = true ->
    exists rest, log = probes ++ LR2Delete key (h _ probes (R2Delete key)) :: rest) /\
   (truthy key = false ->
    serve decodeURIComponent h context
    = (Returned (mkResponse [("success", JBool false);
                             ("error", JStr "Failed to resolve R2 key.")] 500), probes))) /\
  (forall store stored net parsed,
     fileId = "r2:abc123" ->
     img_url (env context) = true ->
     R2_BUCKET (env context) = true ->
     store !! "r2:abc123" = Some stored ->
     kv_metadata stored = Some metadata ->
     truthy (r2Key metadata) = false ->
     let world := store_world store (fun _ => Returned tt) net parsed in
     let calls := [LKvGet "r2:abc123" (Returned (Some stored));
                   LR2Delete (JStr "abc123") (Returned tt);
                   LKvDelete "r2:abc123" (Returned tt)] in
     resolveR2Key metadata "r2:abc123" "r2:abc123" = JStr "abc123" /\
     serve decodeURIComponent world context
     = (Returned (mkResponse
                    [("success", JBool true); ("message", JStr "Deleted from R2 and KV.");
                     ("fileId", JStr "r2:abc123"); ("r2Key", JStr "abc123");
                     ("kvKey", JStr "r2:abc123")] 200), calls) /\
     kv_after store calls !! "r2:abc123" = None).
Proof.
  intros fileId key log. split; [apply resolveR2Key_first_non_empty |]. split.
  - intros Himg Hres Hmeta Hr2 Hbucket.
    pose proof (serve_object_store decodeURIComponent h context record kvKey probes metadata
                  Himg Hres Hmeta Hr2) as Hserve.
    cbv zeta in Hserve. fold fileId key in Hserve. rewrite Hbucket in Hserve.
    unfold negb at 1 in Hserve. split; intros Hkey; rewrite Hkey in Hserve.
    + unfold negb in Hserve. subst log.
      destruct (h unit probes (R2Delete key)) as [u | e].
      * destruct (h unit (probes ++ [LR2Delete key (Returned u)]) (KvDelete kvKey));
          rewrite Hserve; simpl snd; rewrite <- app_assoc; eexists; reflexivity.
      * rewrite Hserve. eexists; reflexivity.
    + exact Hserve.
  - intros store stored net parsed Hid Himg Hbucket Hstore Hmeta Hexplicit.
    now apply r2_abc123_scenario.
Qed.

(** ** The response of the messaging path *)

(** C9.  The code at the failing input: a record with a message reference
    under the bare key abc, both credentials configured, and a transport
    that answers the [fetch] with HTTP success and the [response.json()]
    with an object that has no [ok] property.  The remote deletion did not
    succeed, and the response says so in [telegramDeleteAttempted] and in
    the warning, with success true and the key deleted; but
    [telegramDeleted] is undefined where the claim has false.
    [deleteTelegramMessage] hands back [response.ok && data.ok] as it
    stands, while every other failure path of it returns false. *)
Lemma telegramDeleted_not_false_when_unacknowledged :
  exists r,
    serve Some unacknowledged_world (mkContext configured_env "abc")
    = (Returned r,
       [LKvGet "img:abc" (Returned None); LKvGet "vid:abc" (Returned None);
        LKvGet "aud:abc" (Returned None); LKvGet "doc:abc" (Returned None);
        LKvGet "r2:abc" (Returned None);
        LKvGet "abc" (Returned (Some (mkKvRecord (Some "")
                       (Some (mkMetadata JUndefined JUndefined JUndefined (JNum 5))))));
        LFetch (JStr "token") (JStr "chat") (JNum 5) (Returned (mkFetchResponse true));
        LJson (Returned (BodyValue JUndefined));
        LKvDelete "abc" (Returned tt)]) /\
    field "success" (body r) = Some (JBool true) /\
    field "telegramDeleteAttempted" (body r) = Some (JBool true) /\
    field "warning" (body r)
    = Some (JStr "Telegram deletion failed or messageId missing, but KV metadata was forcibly deleted.") /\
    field "telegramDeleted" (body r) = Some JUndefined /\
    field "telegramDeleted" (body r) <> Some (JBool false).
Proof.
  eexists. split; [vm_compute; reflexivity |].
  repeat split; discriminate.
Qed.

(** The response of the messaging path in general.  When the delete on
    the key-value store returns, the response is at status 200 with success
    true; it carries [telegramDeleteAttempted], true exactly when the record
    has a message reference, and [telegramDeleted], which is the result of
    [deleteTelegramMessage] on the record's message reference (false when
    there is none): what the world's answers to the [fetch] and to the
    [response.json()] determine.  The warning is non-empty exactly when that
    result is falsy.  Whenever the body the world answers carries a boolean
    [ok], a remote deletion that did not succeed is reported as
    [telegramDeleted] false. *)
Theorem messaging_response_reports_remote_outcome
    (decodeURIComponent : string -> option string) (h : Handler) (context : Context)
    (record : option KvRecord) (kvKey : string) (probes : list LogEntry)
    (metadata : Metadata) :
  let fileId := decodedFileId decodeURIComponent (params_id context) in
  let mid := telegramMessageId metadata in
  let token := TG_Bot_Token (env context) in
  let chat := TG_Chat_ID (env context) in
  let credentials := truthy mid && truthy token && truthy chat in
  let fetched := h _ probes (Fetch token chat mid) in
  let parsed_after response :=
    h _ (probes ++ [LFetch token chat mid (Returned response)]) ResponseJson in
  img_url (env context) = true ->
  resolves decodeURIComponent h context record kvKey probes ->
  record_metadata record = Some metadata ->
  isR2 fileId metadata = false ->
  (forall log, h _ log (KvDelete kvKey) = Returned tt) ->
  exists r deleted warning remote,
    serve decodeURIComponent h context
    = (Returned r, probes ++ remote ++ [LKvDelete kvKey (Returned tt)]) /\
    status r = 200%Z /\
    field "success" (body r) = Some (JBool true) /\
    field "telegramDeleteAttempted" (body r) = Some (JBool (truthy mid)) /\
    field "telegramDeleted" (body r) = Some deleted /\
    field "warning" (body r) = Some (JStr warning) /\
    (warning <> "" <-> truthy deleted = false) /\
    (truthy mid = false -> deleted = JBool false /\ remote = []) /\
    (deleted = JBool false \/
     exists ok,
       remote = [LFetch token chat mid (Returned (mkFetchResponse true));
                 LJson (Returned (BodyValue ok))] /\ deleted = ok) /\
    remote_attempt h (env context) mid probes deleted remote /\
    deleted = (if credentials then
                 match fetched with
                 | Returned response =>
                     if resp_ok response then
                       match parsed_after response with
                       | Returned (BodyValue ok) => ok
                       | _ => JBool false
                       end
                     else JBool false
                 | Raised _ => JBool false
                 end
               else JBool false) /\
    remote = (if credentials then
                match fetched with
                | Returned response =>
                    [LFetch token chat mid (Returned response);
                     LJson (parsed_after response)]
                | Raised e => [LFetch token chat mid (Raised e)]
                end
              else []) /\
    ((forall response ok,
        parsed_after response = Returned (BodyValue ok) -> exists b, ok = JBool b) ->
     truthy deleted = false -> deleted = JBool false).
Proof.
  intros fileId mid token chat credentials fetched parsed_after Himg Hres Hmeta Hr2 Hdelete.
  destruct (serve_messaging decodeURIComponent h context record kvKey probes metadata
              Himg Hres Hmeta Hr2) as (deleted & remote & Hattempt & Hserve).
  fold mid in Hattempt. cbv zeta in Hserve. fold mid fileId in Hserve.
  rewrite Hdelete in Hserve.
  assert (Hanswers :
    deleted = (if credentials then
                 match fetched with
                 | Returned response =>
                     if resp_ok response then
                       match parsed_after response with
                       | Returned (BodyValue ok) => ok
                       | _ => JBool false
                       end
                     else JBool false
                 | Raised _ => JBool false
                 end
               else JBool false) /\
    remote = (if credentials then
                match fetched with
                | Returned response =>
                    [LFetch token chat mid (Returned response);
                     LJson (parsed_after response)]
                | Raised e => [LFetch token chat mid (Raised e)]
                end
              else [])).
  { subst credentials. destruct (truthy mid) eqn:Hmid.
    - destruct Hattempt as [data Hdel].
      destruct (deleteTelegramMessage_by_answers mid (env context) (BodyValue (JBool false))
                  h probes) as [data' Hrun].
      cbv zeta in Hrun. rewrite Hmid in Hrun. rewrite Hrun in Hdel.
      injection Hdel as Hvalue _ Hcalls. apply app_inv_head in Hcalls.
      split; [symmetry; exact Hvalue | symmetry; exact Hcalls].
    - destruct Hattempt as [-> ->]. auto. }
  destruct Hanswers as [Hvalue Hcalls].
  assert (Hshape :
    (truthy mid = false -> deleted = JBool false /\ remote = []) /\
    (deleted = JBool false \/
     exists ok,
       remote = [LFetch token chat mid (Returned (mkFetchResponse true));
                 LJson (Returned (BodyValue ok))] /\ deleted = ok)).
  { destruct (truthy mid) eqn:Hmid.
    - split; [discriminate |].
      destruct Hattempt as [data Hdel].
      destruct (deleteTelegramMessage_cases mid (env context) (BodyValue (JBool false)) h probes)
        as (v & data' & calls & Hrun & Hcases).
      rewrite Hrun in Hdel. injection Hdel as Hv _ Hcalls'.
      apply app_inv_head in Hcalls'. subst calls v. fold token chat in Hcases.
      destruct Hcases as
        [(_ & _ & Hd) | [(_ & e & _ & Hd) | [(_ & rsp & e & _ & Hd) |
        [(_ & parsed & _ & Hd) | [(_ & _ & Hd) | (_ & ok & Hr & Hd)]]]]]; eauto.
    - destruct Hattempt as [Hd Hr]. auto. }
  destruct Hshape as [Hskipped Hcases].
  assert (Hboolean :
    (forall response ok,
        parsed_after response = Returned (BodyValue ok) -> exists b, ok = JBool b) ->
    truthy deleted = false -> deleted = JBool false).
  { intros Hbool Hfalsy. rewrite Hvalue in *.
    destruct credentials; [| reflexivity].
    destruct fetched as [[ok_flag] | e]; [| reflexivity].
    destruct ok_flag; cbn [resp_ok] in *; [| reflexivity].
    destruct (parsed_after (mkFetchResponse true)) as [[| ok] | e] eqn:Hparsed;
      try reflexivity.
    destruct (Hbool _ _ Hparsed) as [b ->]. simpl in Hfalsy. now subst b. }
  eexists _, deleted, _, remote. split.
  - rewrite Hserve, <- app_assoc. reflexivity.
  - simpl. do 5 (split; [reflexivity |]).
    split; [| split; [exact Hskipped | split; [exact Hcases | split; [exact Hattempt |
      split; [exact Hvalue | split; [exact Hcalls | exact Hboolean]]]]]].
    destruct (truthy deleted); split; try discriminate; auto.
    intros Hw. now contradiction Hw.
Qed.

(** ** Credentials and bindings *)

(** C10.  On the messaging path, when the bot token or the chat identifier
    is absent, the transport is not called: the only call after the lookups
    is the delete of the resolved key, and when it returns the response is
    at status 200 with success true, [telegramDeleted] false and
    [telegramDeleteAttempted] true exactly when the record has a message
    reference.  An absent key-value binding fails the request at status 500
    before any call; an absent object-store binding fails an object-store
    request at status 500 after the lookups. *)
Theorem missing_credentials_not_fatal
    (decodeURIComponent : string -> option string) (h : Handler) (context : Context)
    (record : option KvRecord) (kvKey : string) (probes : list LogEntry)
    (metadata : Metadata) :
  let fileId := decodedFileId decodeURIComponent (params_id context) in
  let mid := telegramMessageId metadata in
  (img_url (env context) = true ->
   resolves decodeURIComponent h context record kvKey probes ->
   record_metadata record = Some metadata ->
   isR2 fileId metadata = false ->
   truthy (TG_Bot_Token (env context)) && truthy (TG_Chat_ID (env context)) = false ->
   (forall log, h _ log (KvDelete kvKey) = Returned tt) ->
   exists r,
     serve decodeURIComponent h context
     = (Returned r, probes ++ [LKvDelete kvKey (Returned tt)]) /\
     issued is_transport (snd (serve decodeURIComponent h context)) = 0 /\
     status r = 200%Z /\
     field "success" (body r) = Some (JBool true) /\
     field "telegramDeleted" (body r) = Some (JBool false) /\
     field "telegramDeleteAttempted" (body r) = Some (JBool (truthy mid))) /\
  (img_url (env context) = false ->
   serve decodeURIComponent h context
   = (Returned (mkResponse [("success", JBool false);
                            ("error", JStr "KV binding img_url is not configured.")] 500),
      [])) /\
  (img_url (env context) = true ->
   resolves decodeURIComponent h context record kvKey probes ->
   record_metadata record = Some metadata ->
   isR2 fileId metadata = true ->
   R2_BUCKET (env context) = false ->
   serve decodeURIComponent h context
   = (Returned (mkResponse [("success", JBool false);
                            ("error", JStr "R2 bucket is not configured.")] 500),
      probes)).
Proof.
  intros fileId mid. split; [| split].
  - intros Himg Hres Hmeta Hr2 Hcred Hdelete.
    destruct (serve_messaging decodeURIComponent h context record kvKey probes metadata
                Himg Hres Hmeta Hr2) as (deleted & remote & Hattempt & Hserve).
    fold mid in Hattempt. cbv zeta in Hserve. fold mid fileId in Hserve.
    rewrite Hdelete in Hserve.
    assert (Hshape : deleted = JBool false /\ remote = []).
    { destruct (truthy mid) eqn:Hmid.
      - destruct Hattempt as [data Hdel].
        unfold deleteTelegramMessage in Hdel. rewrite Hmid in Hdel.
        apply andb_false_iff in Hcred.
        assert (Hguard : negb true || negb (truthy (TG_Bot_Token (env context)))
                         || negb (truthy (TG_Chat_ID (env context))) = true).
        { destruct Hcred as [-> | ->]; [reflexivity | apply orb_true_r]. }
        rewrite Hguard, run_ret in Hdel.
        injection Hdel as <- _ Hlog.
        rewrite <- (app_nil_r probes) in Hlog at 1. apply app_inv_head in Hlog. auto.
      - exact Hattempt. }
    destruct Hshape as [-> ->].
    pose proof (resolver_lookups_only _ _ _ _ Hres) as Hprobes.
    eexists. rewrite Hserve. rewrite app_nil_r. split; [reflexivity |].
    simpl snd. rewrite issued_app.
    rewrite (issued_none is_transport is_kv_get probes Hprobes lookups_no_transport).
    repeat split; reflexivity.
  - apply serve_unconfigured.
  - intros Himg Hres Hmeta Hr2 Hbucket.
    rewrite (serve_object_store decodeURIComponent h context record kvKey probes metadata
               Himg Hres Hmeta Hr2).
    cbv zeta. rewrite Hbucket. reflexivity.
Qed.

(** ** Instances *)

Lemma metadata_delete_once_after_remote_attempt_witness :
  resolves Some network_down_world (mkContext configured_env "xyz")
    (Some (telegram_record (JNum 7))) "img:xyz"
    [LKvGet "img:xyz" (Returned (Some (telegram_record (JNum 7))))] /\
  snd (serve Some network_down_world (mkContext configured_env "xyz"))
  = [LKvGet "img:xyz" (Returned (Some (telegram_record (JNum 7))));
     LFetch (JStr "token") (JStr "chat") (JNum 7) (Raised (mkError "network error"));
     LKvDelete "img:xyz" (Returned tt)] /\
  issued is_kv_delete (snd (serve Some network_down_world (mkContext configured_env "xyz"))) = 1.
Proof.
  assert (Hres : resolves Some network_down_world (mkContext configured_env "xyz")
                   (Some (telegram_record (JNum 7))) "img:xyz"
                   [LKvGet "img:xyz" (Returned (Some (telegram_record (JNum 7))))])
    by (vm_compute; reflexivity).
  split; [exact Hres |].
  destruct (metadata_delete_once_after_remote_attempt Some network_down_world
              (mkContext configured_env "xyz") _ _ _ _ eq_refl Hres eq_refl eq_refl)
    as (remote & _ & _ & _ & Hone & _).
  split; [vm_compute; reflexivity | exact Hone].
Defined.

Lemma object_store_delete_gates_metadata_delete_witness :
  resolves Some bucket_down_world (mkContext configured_env "r2:abc123")
    (Some object_store_record) "r2:abc123"
    [LKvGet "r2:abc123" (Returned (Some object_store_record))] /\
  snd (serve Some bucket_down_world (mkContext configured_env "r2:abc123"))
  = [LKvGet "r2:abc123" (Returned (Some object_store_record));
     LR2Delete (JStr "abc123") (Raised (mkError "R2 unavailable"))] /\
  issued is_kv_delete (snd (serve Some bucket_down_world (mkContext configured_env "r2:abc123")))
  = 0.
Proof.
  assert (Hres : resolves Some bucket_down_world (mkContext configured_env "r2:abc123")
                   (Some object_store_record) "r2:abc123"
                   [LKvGet "r2:abc123" (Returned (Some object_store_record))])
    by (vm_compute; reflexivity).
  split; [exact Hres |].
  pose proof (object_store_delete_gates_metadata_delete Some bucket_down_world
                (mkContext configured_env "r2:abc123") _ _ _ _
                eq_refl Hres eq_refl eq_refl eq_refl eq_refl) as Hgate.
  cbv zeta in Hgate.
  change (bucket_down_world unit
            [LKvGet "r2:abc123" (Returned (Some object_store_record))]
            (R2Delete (resolveR2Key
               (mkMetadata (JStr "r2") JUndefined JUndefined JUndefined)
               "r2:abc123" (decodedFileId Some "r2:abc123"))))
    with (@Raised unit (mkError "R2 unavailable")) in Hgate.
  cbv iota in Hgate.
  destruct Hgate as (Hlog & Hnone & _).
  split; [exact Hlog | exact Hnone].
Defined.

Lemma not_found_reports_404_without_mutation_witness :
  fst (serve Some absent_world (mkContext configured_env "xyz"))
  = Returned (mkResponse [("success", JBool false); ("error", JStr "File metadata not found.")]
                         404) /\
  issued is_kv_delete (snd (serve Some absent_world (mkContext configured_env "xyz"))) = 0.
Proof.
  destruct (not_found_reports_404_without_mutation Some absent_world
              (mkContext configured_env "xyz") eq_refl)
    as (Hresponse & _ & _ & Hnone & _).
  - intros log' key _. exists None. split; reflexivity.
  - split; [exact Hresponse | exact Hnone].
Defined.

Lemma classification_object_store_iff_witness :
  issued is_r2_delete (snd (serve Some network_down_world (mkContext configured_env "xyz"))) = 0
  /\ issued is_kv_delete (snd (serve Some network_down_world (mkContext configured_env "xyz")))
     = 1.
Proof.
  assert (Hres : resolves Some network_down_world (mkContext configured_env "xyz")
                   (Some (telegram_record (JNum 7))) "img:xyz"
                   [LKvGet "img:xyz" (Returned (Some (telegram_record (JNum 7))))])
    by (vm_compute; reflexivity).
  destruct (classification_object_store_iff Some network_down_world
              (mkContext configured_env "xyz") _ _ _ _ eq_refl Hres eq_refl)
    as (_ & _ & Hmessaging).
  apply Hmessaging. intros [Hprefix | [Htype | Hlegacy]]; discriminate.
Defined.

Lemma physical_key_first_non_empty_witness :
  serve Some bucket_down_world (mkContext configured_env "r2:abc123")
  = (Returned (mkResponse (error_body "R2 unavailable") 500),
     [LKvGet "r2:abc123" (Returned (Some object_store_record));
      LR2Delete (JStr "abc123") (Raised (mkError "R2 unavailable"))]) /\
  serve Some (store_world sample_store (fun _ => Returned tt)
                (Raised (mkError "network error")) (Returned BodyNull))
    (mkContext configured_env "r2:abc123")
  = (Returned (mkResponse
                 [("success", JBool true); ("message", JStr "Deleted from R2 and KV.");
                  ("fileId", JStr "r2:abc123"); ("r2Key", JStr "abc123");
                  ("kvKey", JStr "r2:abc123")] 200),
     [LKvGet "r2:abc123" (Returned (Some object_store_record));
      LR2Delete (JStr "abc123") (Returned tt);
      LKvDelete "r2:abc123" (Returned tt)]).
Proof.
  split; [vm_compute; reflexivity |].
  destruct (physical_key_first_non_empty Some bucket_down_world
              (mkContext configured_env "r2:abc123") None "r2:abc123" []
              (mkMetadata (JStr "r2") JUndefined JUndefined JUndefined))
    as (_ & _ & Hscenario).
  destruct (Hscenario sample_store object_store_record
              (Raised (mkError "network error")) (Returned BodyNull)
              eq_refl eq_refl eq_refl eq_refl eq_refl eq_refl)
    as (_ & Hserve & _).
  exact Hserve.
Defined.

Lemma messaging_response_reports_remote_outcome_witness :
  exists r,
    fst (serve Some unacknowledged_world (mkContext configured_env "abc")) = Returned r /\
    status r = 200%Z /\
    field "telegramDeleteAttempted" (body r) = Some (JBool true).
Proof.
  assert (Hres : resolves Some unacknowledged_world (mkContext configured_env "abc")
                   (Some (telegram_record (JNum 5))) "abc"
                   [LKvGet "img:abc" (Returned None); LKvGet "vid:abc" (Returned None);
                    LKvGet "aud:abc" (Returned None); LKvGet "doc:abc" (Returned None);
                    LKvGet "r2:abc" (Returned None);
                    LKvGet "abc" (Returned (Some (telegram_record (JNum 5))))])
    by (vm_compute; reflexivity).
  destruct (messaging_response_reports_remote_outcome Some unacknowledged_world
              (mkContext configured_env "abc") _ _ _ _ eq_refl Hres eq_refl eq_refl
              (fun _ => eq_refl))
    as (r & deleted & warning & remote & Hserve & Hstatus & _ & Hattempted & _).
  exists r. rewrite Hserve. auto.
Defined.

Lemma missing_credentials_not_fatal_witness :
  exists r,
    serve Some network_down_world (mkContext tokenless_env "xyz")
    = (Returned r,
       [LKvGet "img:xyz" (Returned (Some (telegram_record (JNum 7))));
        LKvDelete "img:xyz" (Returned tt)]) /\
    status r = 200%Z /\
    field "telegramDeleted" (body r) = Some (JBool false) /\
    field "telegramDeleteAttempted" (body r) = Some (JBool true).
Proof.
  assert (Hres : resolves Some network_down_world (mkContext tokenless_env "xyz")
                   (Some (telegram_record (JNum 7))) "img:xyz"
                   [LKvGet "img:xyz" (Returned (Some (telegram_record (JNum 7))))])
    by (vm_compute; reflexivity).
  destruct (missing_credentials_not_fatal Some network_down_world
              (mkContext tokenless_env "xyz") (Some (telegram_record (JNum 7))) "img:xyz"
              [LKvGet "img:xyz" (Returned (Some (telegram_record (JNum 7))))]
              (mkMetadata JUndefined JUndefined JUndefined (JNum 7))) as [Hmessaging _].
  destruct (Hmessaging eq_refl Hres eq_refl eq_refl eq_refl (fun _ => eq_refl))
    as (r & Hserve & _ & Hstatus & _ & Hdeleted & Hattempted).
  exists r. auto.
Defined.

(** * Further properties of the handler *)

(** ** Every request follows one of the ten traces *)

Lemma serve_trace (decodeURIComponent : string -> option string) (h : Handler)
    (context : Context) :
  request_trace decodeURIComponent h context
    (fst (serve decodeURIComponent h context)) (snd (serve decodeURIComponent h context)).
Proof.
  destruct (img_url (env context)) eqn:Himg.
  2: { rewrite (serve_unconfigured decodeURIComponent h context Himg).
       now apply trace_unconfigured. }
  destruct (probe_spec (candidateKeys (decodedFileId decodeURIComponent (params_id context)))
              (decodedFileId decodeURIComponent (params_id context)) tt h [])
    as (r & probes & Hrun & _).
  simpl in Hrun. fold (getRecordWithKey (decodedFileId decodeURIComponent (params_id context)))
    in Hrun.
  destruct r as [[record kvKey] | e].
  2: { rewrite (serve_resolver_raised decodeURIComponent h context e probes Himg Hrun).
       now apply trace_lookup_raised. }
  destruct (record_metadata record) as [metadata |] eqn:Hmeta.
  2: { rewrite (serve_not_found decodeURIComponent h context record kvKey probes
                  Himg Hrun Hmeta).
       now apply (trace_not_found _ _ _ record kvKey). }
  destruct (isR2 (decodedFileId decodeURIComponent (params_id context)) metadata) eqn:Hr2.
  - assert (Hcl : classified decodeURIComponent h context record kvKey probes metadata true)
      by (repeat split; assumption).
    rewrite (serve_object_store decodeURIComponent h context record kvKey probes metadata
               Himg Hrun Hmeta Hr2).
    cbv zeta.
    destruct (R2_BUCKET (env context)) eqn:Hbucket; unfold negb at 1.
    2: { now apply (trace_no_bucket _ _ _ record kvKey probes metadata). }
    destruct (truthy (resolveR2Key metadata kvKey _)) eqn:Hkey; unfold negb at 1.
    2: { now apply (trace_no_physical_key _ _ _ record kvKey probes metadata). }
    destruct (h unit probes (R2Delete _)) as [u | e] eqn:Hpayload.
    2: { now apply (trace_payload_delete_raised _ _ _ record kvKey probes metadata). }
    destruct (h unit (probes ++ _) (KvDelete kvKey)) as [u' | e] eqn:Hkv.
    + rewrite <- app_assoc.
      now apply (trace_object_store_deleted _ _ _ record kvKey probes metadata _ u u').
    + rewrite <- app_assoc.
      now apply (trace_object_store_metadata_raised _ _ _ record kvKey probes metadata _ u e).
  - assert (Hcl : classified decodeURIComponent h context record kvKey probes metadata false)
      by (repeat split; assumption).
    destruct (serve_messaging decodeURIComponent h context record kvKey probes metadata
                Himg Hrun Hmeta Hr2) as (deleted & remote & Hattempt & Hserve).
    cbv zeta in Hserve. rewrite Hserve.
    destruct (h unit (probes ++ remote) (KvDelete kvKey)) as [u | e] eqn:Hkv;
      rewrite <- app_assoc.
    + now apply (trace_messaging_deleted _ _ _ record kvKey probes metadata deleted remote u).
    + now apply (trace_messaging_metadata_raised _ _ _ record kvKey probes metadata
                   deleted remote e).
Qed.

(** ** What the resolver leaves in the log *)

Lemma candidateKeys_length fileId :
  length (candidateKeys fileId) = 1 \/ length (candidateKeys fileId) = 6.
Proof. unfold candidateKeys. destruct (hasKnownPrefix fileId); auto. Qed.

Lemma probe_outcome_length keys fileId r probed :
  probe_outcome keys fileId r probed -> length probed <= length keys.
Proof.
  intros (misses & final & _ & _ & Hkeys & _).
  apply (f_equal (@length _)) in Hkeys.
  rewrite !length_map, length_take in Hkeys. lia.
Qed.

Lemma probe_outcome_hit keys fileId record kvKey probed m :
  probe_outcome keys fileId (Returned (record, kvKey)) probed ->
  record_metadata record = Some m ->
  exists misses stored,
    record = Some stored /\ kv_metadata stored = Some m /\
    probed = misses ++ [LKvGet kvKey (Returned (Some stored))] /\
    forallb is_miss misses = true /\
    kvKey ∈ keys.
Proof.
  intros (misses & final & Hp & Hmiss & Hkeys & Hend) Hmeta.
  destruct Hend as [(_ & _ & Hr) | [(k & stored & m' & -> & Hm & Hr) | (k & e & _ & Hr)]].
  - injection Hr as -> _. discriminate.
  - injection Hr as -> <-. simpl in Hmeta.
    exists misses, stored.
    split; [reflexivity |]. split; [congruence |]. split; [exact Hp |].
    split; [exact Hmiss |].
    assert (Hin : Some kvKey ∈ map entry_key probed).
    { rewrite Hp, map_app. apply elem_of_app. right. simpl. left. }
    rewrite Hkeys in Hin.
    apply list_elem_of_fmap in Hin as (k' & [= <-] & Hin).
    apply elem_of_take in Hin as (i & Hi & _).
    eapply list_elem_of_lookup_2, Hi.
  - discriminate.
Qed.

(** A resolution that found metadata: the last lookup is the hit, on the key
    returned, which is a candidate of the identifier; the lookups before it
    missed, and there are at most six lookups. *)
Lemma resolves_hit decodeURIComponent h context record kvKey probes metadata :
  resolves decodeURIComponent h context record kvKey probes ->
  record_metadata record = Some metadata ->
  exists misses stored,
    record = Some stored /\ kv_metadata stored = Some metadata /\
    probes = misses ++ [LKvGet kvKey (Returned (Some stored))] /\
    forallb is_miss misses = true /\
    kvKey ∈ candidateKeys (decodedFileId decodeURIComponent (params_id context)) /\
    length probes <= 6.
Proof.
  intros Hres Hmeta. unfold resolves, getRecordWithKey in Hres.
  destruct (probe_spec (candidateKeys (decodedFileId decodeURIComponent (params_id context)))
              (decodedFileId decodeURIComponent (params_id context)) tt h [])
    as (r & probed & Hrun & Hout).
  rewrite Hrun in Hres. injection Hres as -> <-. simpl.
  destruct (probe_outcome_hit _ _ _ _ _ _ Hout Hmeta)
    as (misses & stored & Hrec & Hm & Hp & Hmiss & Hin).
  exists misses, stored. repeat split; auto.
  pose proof (probe_outcome_length _ _ _ _ Hout).
  destruct (candidateKeys_length (decodedFileId decodeURIComponent (params_id context))); lia.
Qed.

Lemma resolver_lookups_bounded fileId h r log :
  run (getRecordWithKey fileId tt) h [] = ((r, tt), log) ->
  forallb is_kv_get log = true /\ length log <= 6.
Proof.
  intros Hrun. split; [eapply resolver_lookups_only, Hrun |].
  destruct (probe_spec (candidateKeys fileId) fileId tt h []) as (r' & probed & Hrun' & Hout).
  unfold getRecordWithKey in Hrun. rewrite Hrun' in Hrun. injection Hrun as _ <-. simpl.
  pose proof (probe_outcome_length _ _ _ _ Hout).
  destruct (candidateKeys_length fileId); lia.
Qed.

(** The calls of a remote deletion step: none, the [fetch] alone when it
    raised, or the [fetch] followed by [response.json()]. *)
Lemma remote_attempt_shape h env mid probes deleted remote :
  remote_attempt h env mid probes deleted remote ->
  remote = []
  \/ (exists e, remote = [LFetch (TG_Bot_Token env) (TG_Chat_ID env) mid (Raised e)])
  \/ (exists response parsed,
        remote = [LFetch (TG_Bot_Token env) (TG_Chat_ID env) mid (Returned response);
                  LJson parsed]).
Proof.
  unfold remote_attempt. destruct (truthy mid).
  - intros [data Hdel].
    destruct (deleteTelegramMessage_cases mid env (BodyValue (JBool false)) h probes)
      as (v & data' & calls & Hrun & Hcases).
    rewrite Hrun in Hdel. injection Hdel as _ _ Hcalls.
    apply app_inv_head in Hcalls. subst calls. cbv zeta in Hcases.
    destruct Hcases as
      [(_ & -> & _) | [(_ & e & -> & _) | [(_ & rsp & e & -> & _) |
      [(_ & parsed & -> & _) | [(_ & -> & _) | (_ & ok & -> & _)]]]]]; simpl; eauto 6.
  - intros [_ ->]. auto.
Qed.

(** Case analysis on the trace of a request. *)
Ltac by_trace d h c :=
  let Htrace := fresh "Htrace" in
  pose proof (serve_trace d h c) as Htrace;
  destruct (serve d h c) as [response log];
  simpl fst in *; simpl snd in *;
  destruct Htrace.

(** ** The response *)

(** X1.  Against collaborators that fail only by raising an [Error] with a
    string message, [onRequest] itself never raises: whatever they answer
    and whichever of them raises, it completes with a response, at status
    200, 404 or 500, whose body has a boolean [success]; [success] is true
    exactly at status 200, and the body has an [error] string exactly when
    [success] is false. *)
Theorem request_always_answers
    (decodeURIComponent : string -> option string) (h : Handler) (context : Context) :
  exists r b,
    fst (serve decodeURIComponent h context) = Returned r /\
    (status r = 200 \/ status r = 404 \/ status r = 500)%Z /\
    field "success" (body r) = Some (JBool b) /\
    (b = true <-> status r = 200%Z) /\
    (b = false <-> exists msg, field "error" (body r) = Some (JStr msg)).
Proof.
  by_trace decodeURIComponent h (context).
  all: eexists _, _; split; [reflexivity |]; simpl.
  all: repeat split; auto; try discriminate; try (intros [msg Hmsg]; discriminate Hmsg);
    eauto.
Qed.

(** ** Failures of the key-value store *)

(** X2.  When a lookup of the resolver raises, the probing stops there: the
    raising lookup is the last call of the request, every lookup before it
    was a miss, and the response is success:false at status 500 with the
    message of the exception. *)
Theorem lookup_failure_reported_500
    (decodeURIComponent : string -> option string) (h : Handler) (context : Context)
    (e : JsError) (probes : list LogEntry) :
  let fileId := decodedFileId decodeURIComponent (params_id context) in
  img_url (env context) = true ->
  run (getRecordWithKey fileId tt) h [] = ((Raised e, tt), probes) ->
  serve decodeURIComponent h context
  = (Returned (mkResponse [("success", JBool false); ("error", JStr (message e))] 500),
     probes) /\
  exists misses key,
    probes = misses ++ [LKvGet key (Raised e)] /\
    forallb is_miss misses = true /\
    key ∈ candidateKeys fileId.
Proof.
  intros fileId Himg Hrun. split.
  - apply (serve_resolver_raised decodeURIComponent h context e probes Himg Hrun).
  - destruct (probe_spec (candidateKeys fileId) fileId tt h [])
      as (r & probed & Hrun' & misses & final & Hp & Hmiss & Hkeys & Hend).
    unfold getRecordWithKey in Hrun. rewrite Hrun' in Hrun. injection Hrun as -> <-.
    simpl. destruct Hend as [(_ & _ & Hr) | [(k & s & m & _ & _ & Hr) | (k & e' & -> & Hr)]];
      try discriminate.
    injection Hr as <-. exists misses, k. repeat split; auto.
    assert (Hin : Some k ∈ map entry_key probed).
    { rewrite Hp, map_app. apply elem_of_app. right. simpl. left. }
    rewrite Hkeys in Hin.
    apply list_elem_of_fmap in Hin as (k' & [= <-] & Hin).
    apply elem_of_take in Hin as (i & Hi & _).
    eapply list_elem_of_lookup_2, Hi.
Qed.

Lemma lookup_failure_reported_500_witness :
  serve Some kv_unreachable_world (mkContext configured_env "xyz")
  = (Returned (mkResponse [("success", JBool false); ("error", JStr "KV unavailable")] 500),
     [LKvGet "img:xyz" (Raised (mkError "KV unavailable"))]).
Proof.
  exact (proj1 (lookup_failure_reported_500 Some kv_unreachable_world
                  (mkContext configured_env "xyz") (mkError "KV unavailable")
                  [LKvGet "img:xyz" (Raised (mkError "KV unavailable"))] eq_refl eq_refl)).
Defined.

(** X3.  When the delete on the key-value store raises, the request answers
    success:false at status 500 with the message of the exception, on both
    paths and after the payload step has run: on the messaging path whatever
    the remote deletion did, on the object-store path although the object
    was deleted. *)
Theorem metadata_delete_failure_reported_500
    (decodeURIComponent : string -> option string) (h : Handler) (context : Context)
    (record : option KvRecord) (kvKey : string) (probes : list LogEntry)
    (metadata : Metadata) (object_store : bool) (e : JsError) :
  let fileId := decodedFileId decodeURIComponent (params_id context) in
  let key := resolveR2Key metadata kvKey fileId in
  let failure := Returned (mkResponse [("success", JBool false);
                                       ("error", JStr (message e))] 500) in
  classified decodeURIComponent h context record kvKey probes metadata object_store ->
  (forall log, h _ log (KvDelete kvKey) = Raised e) ->
  (object_store = false ->
   exists deleted remote,
     remote_attempt h (env context) (telegramMessageId metadata) probes deleted remote /\
     serve decodeURIComponent h context
     = (failure, probes ++ remote ++ [LKvDelete kvKey (Raised e)])) /\
  (object_store = true ->
   R2_BUCKET (env context) = true ->
   truthy key = true ->
   forall u, h _ probes (R2Delete key) = Returned u ->
   serve decodeURIComponent h context
   = (failure, probes ++ [LR2Delete key (Returned u); LKvDelete kvKey (Raised e)])).
Proof.
  intros fileId key failure (Himg & Hres & Hmeta & Hr2) Hraise. split.
  - intros ->.
    destruct (serve_messaging decodeURIComponent h context record kvKey probes metadata
                Himg Hres Hmeta Hr2) as (deleted & remote & Hattempt & Hserve).
    exists deleted, remote. split; [exact Hattempt |].
    cbv zeta in Hserve. rewrite Hserve, Hraise, <- app_assoc. reflexivity.
  - intros -> Hbucket Hkey u Hpayload.
    rewrite (serve_object_store decodeURIComponent h context record kvKey probes metadata
               Himg Hres Hmeta Hr2).
    cbv zeta. fold fileId key. rewrite Hbucket, Hkey, Hpayload, Hraise, <- app_assoc.
    reflexivity.
Qed.

Lemma metadata_delete_failure_reported_500_witness :
  serve Some (kv_readonly_world sample_store) (mkContext configured_env "r2:abc123")
  = (Returned (mkResponse [("success", JBool false); ("error", JStr "KV write failed")] 500),
     [LKvGet "r2:abc123" (Returned (Some object_store_record));
      LR2Delete (JStr "abc123") (Returned tt);
      LKvDelete "r2:abc123" (Raised (mkError "KV write failed"))]).
Proof.
  assert (Hcl : classified Some (kv_readonly_world sample_store)
                  (mkContext configured_env "r2:abc123") (Some object_store_record)
                  "r2:abc123" [LKvGet "r2:abc123" (Returned (Some object_store_record))]
                  (mkMetadata (JStr "r2") JUndefined JUndefined JUndefined) true)
    by (repeat split; vm_compute; reflexivity).
  exact (proj2 (metadata_delete_failure_reported_500 Some (kv_readonly_world sample_store)
                  (mkContext configured_env "r2:abc123") _ _ _ _ _
                  (mkError "KV write failed") Hcl (fun _ => eq_refl))
               eq_refl eq_refl eq_refl tt eq_refl).
Defined.

(** X4.  The catch clause around the remote deletion never fires: in every
    response that carries [telegramDeleteError], its value is null. *)
Theorem telegramDeleteError_always_null
    (decodeURIComponent : string -> option string) (h : Handler) (context : Context)
    (r : Response) (v : jsval) :
  fst (serve decodeURIComponent h context) = Returned r ->
  field "telegramDeleteError" (body r) = Some v ->
  v = JNull.
Proof.
  by_trace decodeURIComponent h (context); intros [= <-]; simpl; intros Hfield;
    try discriminate Hfield.
  now injection Hfield as <-.
Qed.

Lemma telegramDeleteError_always_null_witness :
  let r := mkResponse (telegram_body "xyz" "img:xyz" (mkLocals (JBool false) true None)) 200 in
  fst (serve Some network_down_world (mkContext configured_env "xyz")) = Returned r /\
  field "telegramDeleteError" (body r) = Some JNull /\
  JNull = JNull.
Proof.
  intros r. split; [vm_compute; reflexivity |]. split; [reflexivity |].
  exact (telegramDeleteError_always_null Some network_down_world
           (mkContext configured_env "xyz") r JNull eq_refl eq_refl).
Defined.

(** ** The discipline of the calls *)

Lemma issued_le_length kind log : issued kind log <= length log.
Proof.
  unfold issued. induction log as [| e log IH]; simpl; [lia |].
  destruct (kind e); simpl; lia.
Qed.

Lemma remote_attempt_transport h env mid probes deleted remote :
  remote_attempt h env mid probes deleted remote ->
  forallb is_transport remote = true /\ length remote <= 2.
Proof.
  intros Hattempt.
  destruct (remote_attempt_shape _ _ _ _ _ _ Hattempt)
    as [-> | [(e & ->) | (rsp & parsed & ->)]]; simpl; split; auto; lia.
Qed.

Lemma forallb_elem_of (kind : LogEntry -> bool) log e :
  forallb kind log = true -> e ∈ log -> kind e = true.
Proof.
  intros Hall Hin. apply list_elem_of_In in Hin.
  now apply (proj1 (forallb_forall kind log) Hall).
Qed.

(** Finds the resolution among the hypotheses and derives that the lookups
    are lookups, and at most six. *)
Ltac lookups_of_trace :=
  try match goal with
      | Hcl : classified _ _ _ _ _ _ _ _ |- _ =>
          let Himg := fresh "Himg" in
          let Hres := fresh "Hres" in
          let Hmeta := fresh "Hmeta" in
          let Hr2 := fresh "Hr2" in
          destruct Hcl as (Himg & Hres & Hmeta & Hr2)
      end;
  match goal with
  | Hres : resolves _ _ _ _ _ ?probes |- _ =>
      let Hget := fresh "Hget" in
      let Hlen := fresh "Hlen" in
      destruct (resolver_lookups_bounded _ _ _ _ Hres) as [Hget Hlen]
  | Hres : run (getRecordWithKey _ tt) _ [] = _ |- _ =>
      let Hget := fresh "Hget" in
      let Hlen := fresh "Hlen" in
      destruct (resolver_lookups_bounded _ _ _ _ Hres) as [Hget Hlen]
  end.

(** X5.  Against any world the log of a request is a run of at most six
    lookups followed by at most three other calls: no lookup is issued after
    another kind of call, and a request issues at most one delete on the
    object store, at most one delete on the key-value store, and at most two
    calls of the transport. *)
Theorem calls_are_lookups_then_at_most_one_deletion
    (decodeURIComponent : string -> option string) (h : Handler) (context : Context) :
  exists lookups rest,
    snd (serve decodeURIComponent h context) = lookups ++ rest /\
    forallb is_kv_get lookups = true /\
    length lookups <= 6 /\
    issued is_kv_get rest = 0 /\
    length rest <= 3 /\
    issued is_r2_delete rest <= 1 /\
    issued is_kv_delete rest <= 1 /\
    issued is_transport rest <= 2.
Proof.
  by_trace decodeURIComponent h (context).
  1: { exists [], []. simpl. repeat split; auto; unfold issued; simpl; lia. }
  all: lookups_of_trace.
  all: try match goal with
           | Hatt : remote_attempt _ _ _ _ _ _ |- _ =>
               destruct (remote_attempt_shape _ _ _ _ _ _ Hatt)
                 as [-> | [(err & ->) | (rsp & body_read & ->)]]
           end.
  all: eexists probes, _;
    (split; [first [reflexivity | symmetry; apply app_nil_r] |]);
    repeat split; auto; unfold issued; simpl; lia.
Qed.

(** X6.  A request only deletes what it found and may delete: a delete on
    the key-value store is for a candidate key of the identifier whose
    lookup, in the same request, returned a record with metadata; a delete
    on the object store is issued only with the binding configured, for a
    non-empty key. *)
Theorem deletes_only_what_was_resolved
    (decodeURIComponent : string -> option string) (h : Handler) (context : Context) :
  let fileId := decodedFileId decodeURIComponent (params_id context) in
  let log := snd (serve decodeURIComponent h context) in
  (forall key r, LKvDelete key r ∈ log ->
     key ∈ candidateKeys fileId /\
     exists stored metadata,
       LKvGet key (Returned (Some stored)) ∈ log /\ kv_metadata stored = Some metadata) /\
  (forall key r, LR2Delete key r ∈ log ->
     R2_BUCKET (env context) = true /\ truthy key = true).
Proof.
  intros fileId log. subst log.
  by_trace decodeURIComponent h (context).
  1: { split; intros key r Hin; inversion Hin. }
  all: lookups_of_trace.
  all: try (destruct (resolves_hit _ _ _ _ _ _ _ Hres Hmeta)
              as (misses & stored & Hrec & Hstored & Hprobes & Hmiss & Hcand & _)).
  all: try match goal with
           | Hatt : remote_attempt _ _ _ _ _ _ |- _ =>
               destruct (remote_attempt_transport _ _ _ _ _ _ Hatt) as [Htransport _]
           end.
  all: split; intros key' r Hin;
    repeat match goal with
           | Hin : _ ∈ _ ++ _ |- _ => apply elem_of_app in Hin as [Hin | Hin]
           | Hin : _ ∈ _ :: _ |- _ => apply elem_of_cons in Hin as [Hin | Hin]
           | Hin : _ ∈ [] |- _ => inversion Hin
           | Hin : _ ∈ ?l, Hget : forallb is_kv_get ?l = true |- _ =>
               apply (forallb_elem_of _ _ _ Hget) in Hin; discriminate Hin
           | Hin : _ ∈ ?l, Htr : forallb is_transport ?l = true |- _ =>
               apply (forallb_elem_of _ _ _ Htr) in Hin; discriminate Hin
           | Hin : LKvDelete _ _ = _ |- _ => first [discriminate Hin | injection Hin as -> ->]
           | Hin : LR2Delete _ _ = _ |- _ => first [discriminate Hin | injection Hin as -> ->]
           end.
  all: try (split; [assumption | congruence]).
  all: (split; [assumption |]); exists stored, metadata; (split; [| assumption]);
    rewrite Hprobes; apply elem_of_app; left; apply elem_of_app; right; left.
Qed.

Lemma last_app_two {A} (l : list A) (a b : A) : last (l ++ [a; b]) = Some b.
Proof. change [a; b] with ([a] ++ [b]). now rewrite app_assoc, last_snoc. Qed.

Lemma last_lookups_not_delete probes key r :
  forallb is_kv_get probes = true -> last probes <> Some (LKvDelete key r).
Proof.
  intros Hget Hlast. apply last_Some_elem_of in Hlast.
  apply (forallb_elem_of _ _ _ Hget) in Hlast. discriminate.
Qed.

(** X7.  A request answers at status 200 exactly when its last call is a
    delete on the key-value store that returned.  The 200 response then
    echoes the decoded identifier as [fileId] and the deleted key as
    [kvKey]; when it carries [r2Key], that is the key of a delete on the
    object store that returned in the same request. *)
Theorem success_iff_metadata_delete_returned
    (decodeURIComponent : string -> option string) (h : Handler) (context : Context) :
  let fileId := decodedFileId decodeURIComponent (params_id context) in
  let log := snd (serve decodeURIComponent h context) in
  exists r,
    fst (serve decodeURIComponent h context) = Returned r /\
    (status r = 200%Z <-> exists key u, last log = Some (LKvDelete key (Returned u))) /\
    (forall key u, last log = Some (LKvDelete key (Returned u)) ->
       field "kvKey" (body r) = Some (JStr key) /\
       field "fileId" (body r) = Some (JStr fileId)) /\
    (forall key, field "r2Key" (body r) = Some key ->
       exists u, LR2Delete key (Returned u) ∈ log).
Proof.
  intros fileId log. subst log fileId.
  by_trace decodeURIComponent h (context).
  all: try lookups_of_trace.
  all: eexists; (split; [reflexivity |]).
  all: repeat match goal with
              | |- context [last (?l ++ [?a; ?b])] => rewrite (last_app_two l a b)
              | |- context [last (?l ++ ?m ++ [?a])] => rewrite (app_assoc l m [a]), last_snoc
              | |- context [last (?l ++ [?a])] => rewrite last_snoc
              end.
  all: simpl; split; [| split].
  all: try (split; [discriminate | intros (echoed & ret & Hlast)]).
  all: try (intros echoed ret Hlast).
  all: try discriminate Hlast.
  all: try (exfalso; eapply last_lookups_not_delete; eassumption).
  all: try (intros physical Hfield; discriminate Hfield).
  all: try (split; [reflexivity | eauto]).
  all: try (injection Hlast as <- <-; split; reflexivity).
  all: try (split; [intros _; eexists _, _; reflexivity | reflexivity]).
  intros physical [= <-]. exists u. apply elem_of_app. right. left.
Qed.

(** ** Requests against a store *)

Lemma kv_after_app store l1 l2 :
  kv_after store (l1 ++ l2) = kv_after (kv_after store l1) l2.
Proof. unfold kv_after. apply fold_left_app. Qed.

Lemma kv_after_transport store log :
  forallb is_transport log = true -> kv_after store log = store.
Proof.
  unfold kv_after. revert store.
  induction log as [| e log IH]; intros store Hall; simpl in *; [reflexivity |].
  apply andb_true_iff in Hall as [He Hall].
  destruct e; try discriminate; now apply IH.
Qed.

Lemma kv_after_absent store log key :
  store !! key = None -> kv_after store log !! key = None.
Proof.
  unfold kv_after. revert store.
  induction log as [| e log IH]; intros store Hnone; simpl; [exact Hnone |].
  apply IH. destruct e as [| k [u | err] | | |]; auto.
  destruct (decide (k = key)) as [-> | Hne];
    [apply lookup_delete_eq | now rewrite lookup_delete_ne].
Qed.

(** In a world with a store, the record the resolver returns is the one the
    store holds under the key returned. *)
Lemma store_world_resolves_hit decodeURIComponent context store r2 net parsed
    record kvKey probes metadata :
  resolves decodeURIComponent (store_world store r2 net parsed) context record kvKey probes ->
  record_metadata record = Some metadata ->
  exists stored,
    store !! kvKey = Some stored /\ kv_metadata stored = Some metadata /\
    kvKey ∈ candidateKeys (decodedFileId decodeURIComponent (params_id context)) /\
    forallb is_kv_get probes = true.
Proof.
  intros Hres Hmeta.
  destruct (resolves_hit _ _ _ _ _ _ _ Hres Hmeta)
    as (misses & stored & Hrec & Hstored & Hprobes & Hmiss & Hcand & _).
  exists stored. repeat split; auto.
  - pose proof (run_answered
                  (getRecordWithKey (decodedFileId decodeURIComponent (params_id context)) tt)
                  (store_world store r2 net parsed) [] misses
                  (LKvGet kvKey (Returned (Some stored))) []) as Hans.
    unfold resolves in Hres. rewrite Hres in Hans. simpl in Hans.
    specialize (Hans Hprobes).
    rewrite (kv_after_lookups store misses (is_miss_kv_get _ Hmiss)) in Hans.
    now injection Hans as <-.
  - eapply resolver_lookups_only, Hres.
Qed.

(** What one request does to a store: nothing unless it answers 200, and
    then it removes the key it echoes, which held a record. *)
Lemma store_world_request decodeURIComponent context store r2 net parsed :
  let world := store_world store r2 net parsed in
  let fileId := decodedFileId decodeURIComponent (params_id context) in
  let log := snd (serve decodeURIComponent world context) in
  exists r,
    fst (serve decodeURIComponent world context) = Returned r /\
    ((status r = 200%Z /\
      exists key stored,
        field "kvKey" (body r) = Some (JStr key) /\
        key ∈ candidateKeys fileId /\
        store !! key = Some stored /\
        kv_after store log = delete key store)
     \/ (status r <> 200%Z /\ kv_after store log = store)).
Proof.
  intros world fileId log. subst world fileId log.
  by_trace decodeURIComponent (store_world store r2 net parsed) (context).
  all: try lookups_of_trace.
  all: try match goal with
           | Hraise : store_world _ _ _ _ _ _ (KvDelete _) = Raised _ |- _ =>
               discriminate Hraise
           end.
  all: eexists; (split; [reflexivity |]).
  all: try (right; split; [discriminate |]).
  all: try reflexivity.
  all: try (now apply kv_after_lookups).
  - rewrite kv_after_app, (kv_after_lookups _ _ Hget). reflexivity.
  - left. split; [reflexivity |].
    destruct (store_world_resolves_hit _ _ _ _ _ _ _ _ _ _ Hres Hmeta)
      as (stored & Hstore & _ & Hcand & _).
    exists kvKey, stored. repeat split; auto.
    rewrite kv_after_app, (kv_after_lookups _ _ Hget). reflexivity.
  - left. split; [reflexivity |].
    destruct (store_world_resolves_hit _ _ _ _ _ _ _ _ _ _ Hres Hmeta)
      as (stored & Hstore & _ & Hcand & _).
    match goal with
    | Hatt : remote_attempt _ _ _ _ _ _ |- _ =>
        destruct (remote_attempt_transport _ _ _ _ _ _ Hatt) as [Htransport _]
    end.
    exists kvKey, stored. repeat split; auto.
    rewrite !kv_after_app, (kv_after_lookups _ _ Hget), (kv_after_transport _ _ Htransport).
    reflexivity.
Qed.

(** X8.  Against a store, a request that does not answer 200 leaves the
    store as it was; a request that answers 200 removes exactly the key it
    echoes as [kvKey], a candidate key of the identifier under which the
    store held a record, and leaves every other key as it was. *)
Theorem store_changes_only_at_echoed_key
    (decodeURIComponent : string -> option string) (context : Context)
    (store : gmap string KvRecord) (r2 : jsval -> outcome unit)
    (net : outcome FetchResponse) (parsed : outcome JsonBody) :
  let world := store_world store r2 net parsed in
  let fileId := decodedFileId decodeURIComponent (params_id context) in
  let after := kv_after store (snd (serve decodeURIComponent world context)) in
  exists r,
    fst (serve decodeURIComponent world context) = Returned r /\
    (status r <> 200%Z -> after = store) /\
    (status r = 200%Z ->
     exists key stored,
       field "kvKey" (body r) = Some (JStr key) /\
       key ∈ candidateKeys fileId /\
       store !! key = Some stored /\
       after !! key = None /\
       forall other, other <> key -> after !! other = store !! other).
Proof.
  intros world fileId after. subst world fileId after.
  destruct (store_world_request decodeURIComponent context store r2 net parsed)
    as (r & Hr & [(Hok & key & stored & Hecho & Hcand & Hstore & Hafter) | (Hnot & Hsame)]).
  - exists r. split; [exact Hr |]. split; [intros Hne; contradiction |].
    intros _. exists key, stored. rewrite Hafter. repeat split; auto.
    + apply lookup_delete_eq.
    + intros other Hne. now apply lookup_delete_ne.
  - exists r. split; [exact Hr |]. split; [intros _; exact Hsame |].
    intros Hok. contradiction.
Qed.

(** X9.  Deleting twice: for an identifier that carries a known prefix,
    after a request against a store answered 200, the same request against
    the store it left answers 404 after the single lookup of the
    identifier, whatever the object store and the transport do. *)
Theorem repeated_deletion_is_not_found
    (decodeURIComponent : string -> option string) (context : Context)
    (store : gmap string KvRecord) (r2 r2' : jsval -> outcome unit)
    (net net' : outcome FetchResponse) (parsed parsed' : outcome JsonBody) (r : Response) :
  let fileId := decodedFileId decodeURIComponent (params_id context) in
  let first := serve decodeURIComponent (store_world store r2 net parsed) context in
  hasKnownPrefix fileId = true ->
  fst first = Returned r ->
  status r = 200%Z ->
  serve decodeURIComponent (store_world (kv_after store (snd first)) r2' net' parsed') context
  = (Returned (mkResponse [("success", JBool false);
                           ("error", JStr "File metadata not found.")] 404),
     [LKvGet fileId (Returned None)]).
Proof.
  intros fileId first Hprefix Hfirst Hok. subst first.
  destruct (store_world_request decodeURIComponent context store r2 net parsed)
    as (r0 & Hr & [(_ & key & stored & _ & Hcand & _ & Hafter) | (Hnot & _)]).
  2: { rewrite Hr in Hfirst. injection Hfirst as ->. contradiction. }
  fold fileId in Hcand. rewrite (candidateKeys_prefixed _ Hprefix) in Hcand.
  apply list_elem_of_singleton in Hcand. subst key. rewrite Hafter.
  assert (Himg : img_url (env context) = true).
  { destruct (img_url (env context)) eqn:Himg; [reflexivity |].
    rewrite (serve_unconfigured decodeURIComponent _ context Himg) in Hfirst.
    injection Hfirst as <-. discriminate Hok. }
  apply (serve_not_found decodeURIComponent _ context None fileId _ Himg); [| reflexivity].
  unfold resolves, getRecordWithKey. fold fileId.
  rewrite (candidateKeys_prefixed _ Hprefix). simpl probe.
  rewrite run_bind, run_await, store_world_lookup.
  change (kv_after (delete fileId store) []) with (delete fileId store).
  rewrite lookup_delete_eq. reflexivity.
Qed.

Lemma repeated_deletion_is_not_found_witness :
  serve Some (store_world
                (kv_after sample_store
                   (snd (serve Some network_down_world (mkContext configured_env "r2:abc123"))))
                (fun _ => Returned tt) (Raised (mkError "network error")) (Returned BodyNull))
    (mkContext configured_env "r2:abc123")
  = (Returned (mkResponse [("success", JBool false);
                           ("error", JStr "File metadata not found.")] 404),
     [LKvGet "r2:abc123" (Returned None)]).
Proof.
  exact (repeated_deletion_is_not_found Some (mkContext configured_env "r2:abc123")
           sample_store (fun _ => Returned tt) (fun _ => Returned tt)
           (Raised (mkError "network error")) (Raised (mkError "network error"))
           (Returned BodyNull) (Returned BodyNull)
           (mkResponse (r2_body "r2:abc123" (JStr "abc123") "r2:abc123") 200)
           eq_refl eq_refl eq_refl).
Defined.

(** ** The physical key of a resolved record *)

Lemma unprefixed_not_object_store fileId :
  hasKnownPrefix fileId = false -> startsWith fileId "r2:" = false.
Proof.
  unfold hasKnownPrefix, prefixes. simpl existsb. rewrite !orb_false_iff.
  intros (_ & _ & _ & _ & Hr2 & _). exact Hr2.
Qed.

Lemma startsWith_r2_append fileId : startsWith ("r2:" +:+ fileId) "r2:" = true.
Proof. unfold startsWith. simpl. destruct fileId; reflexivity. Qed.

(** For a key the resolver can return, the Storage Key operand of the
    resolution never decides: it is absent, or it equals the operand that
    follows it. *)
Lemma resolveR2Key_of_candidate metadata kvKey fileId :
  kvKey ∈ candidateKeys fileId ->
  truthy (r2Key metadata) = false ->
  resolveR2Key metadata kvKey fileId
  = JStr (if startsWith fileId "r2:" then slice 3 fileId else fileId).
Proof.
  intros Hcand Hexplicit. unfold resolveR2Key, js_or. rewrite Hexplicit.
  unfold candidateKeys in Hcand. destruct (hasKnownPrefix fileId) eqn:Hprefix.
  - apply list_elem_of_singleton in Hcand. subst kvKey.
    destruct (startsWith fileId "r2:"); [| reflexivity].
    destruct (truthy (JStr (slice 3 fileId))); reflexivity.
  - rewrite (unprefixed_not_object_store _ Hprefix).
    simpl in Hcand.
    repeat match goal with
           | Hin : _ ∈ _ :: _ |- _ => apply elem_of_cons in Hin as [-> | Hin]
           | Hin : _ ∈ [] |- _ => inversion Hin
           end; try reflexivity.
    + rewrite startsWith_r2_append.
      change (slice 3 ("r2:" +:+ fileId)) with fileId.
      destruct (truthy (JStr fileId)); reflexivity.
    + change ("" +:+ fileId) with fileId.
      rewrite (unprefixed_not_object_store _ Hprefix). reflexivity.
Qed.

(** X11.  On the object-store path, for a record without an explicit
    [r2Key], the physical key is the identifier without its r2: prefix (the
    identifier itself when it has none), whichever candidate key the record
    was found under; with the binding configured and that key non-empty, it
    is the key the delete on the object store is issued for. *)
Theorem physical_key_is_identifier_without_prefix
    (decodeURIComponent : string -> option string) (h : Handler) (context : Context)
    (record : option KvRecord) (kvKey : string) (probes : list LogEntry)
    (metadata : Metadata) :
  let fileId := decodedFileId decodeURIComponent (params_id context) in
  let bare := if startsWith fileId "r2:" then slice 3 fileId else fileId in
  classified decodeURIComponent h context record kvKey probes metadata true ->
  truthy (r2Key metadata) = false ->
  resolveR2Key metadata kvKey fileId = JStr bare /\
  (R2_BUCKET (env context) = true ->
   bare <> "" ->
   exists rest,
     snd (serve decodeURIComponent h context)
     = probes ++ LR2Delete (JStr bare) (h _ probes (R2Delete (JStr bare))) :: rest).
Proof.
  intros fileId bare (Himg & Hres & Hmeta & Hr2) Hexplicit.
  destruct (resolves_hit _ _ _ _ _ _ _ Hres Hmeta) as (_ & _ & _ & _ & _ & _ & Hcand & _).
  pose proof (resolveR2Key_of_candidate metadata kvKey fileId Hcand Hexplicit) as Hkey.
  fold bare in Hkey. split; [exact Hkey |].
  intros Hbucket Hbare.
  rewrite (serve_object_store decodeURIComponent h context record kvKey probes metadata
             Himg Hres Hmeta Hr2).
  cbv zeta. fold fileId. rewrite Hkey, Hbucket. unfold negb at 1.
  assert (Htruthy : truthy (JStr bare) = true).
  { simpl. destruct (String.eqb_spec bare ""); [contradiction | reflexivity]. }
  rewrite Htruthy. unfold negb.
  destruct (h unit probes (R2Delete (JStr bare))) as [u | e].
  - destruct (h unit (probes ++ _) (KvDelete kvKey)); simpl snd; rewrite <- app_assoc;
      eexists; reflexivity.
  - eexists; reflexivity.
Qed.

Lemma physical_key_is_identifier_without_prefix_witness :
  resolveR2Key (mkMetadata (JStr "r2") JUndefined JUndefined JUndefined)
    "r2:abc123" "r2:abc123" = JStr "abc123".
Proof.
  assert (Hcl : classified Some bucket_down_world (mkContext configured_env "r2:abc123")
                  (Some object_store_record) "r2:abc123"
                  [LKvGet "r2:abc123" (Returned (Some object_store_record))]
                  (mkMetadata (JStr "r2") JUndefined JUndefined JUndefined) true)
    by (repeat split; vm_compute; reflexivity).
  exact (proj1 (physical_key_is_identifier_without_prefix Some bucket_down_world
                  (mkContext configured_env "r2:abc123") _ _ _ _ Hcl eq_refl)).
Defined.

(** ** The calls of the transport *)

(** X12.  [deleteTelegramMessage] calls the transport at most twice: one
    [fetch], carrying the bot token, the chat identifier and the message
    identifier it was given, and, whenever that [fetch] returned -- also
    with an HTTP status that is not ok -- one [response.json()].  A status
    that is not ok, or a body that does not parse, yields false whatever
    the other says. *)
Theorem transport_is_fetch_then_json
    (messageId : jsval) (env : Env) (data : JsonBody) (h : Handler) (log : list LogEntry) :
  let token := TG_Bot_Token env in
  let chat := TG_Chat_ID env in
  exists v data' calls,
    run (deleteTelegramMessage messageId env data) h log
    = ((Returned v, data'), log ++ calls) /\
    (calls = []
     \/ (exists e, calls = [LFetch token chat messageId (Raised e)] /\
                   h _ log (Fetch token chat messageId) = Raised e)
     \/ (exists response parsed,
           calls = [LFetch token chat messageId (Returned response); LJson parsed] /\
           h _ log (Fetch token chat messageId) = Returned response /\
           h _ (log ++ [LFetch token chat messageId (Returned response)]) ResponseJson
           = parsed /\
           (resp_ok response = false -> v = JBool false) /\
           (forall e, parsed = Raised e -> v = JBool false))).
Proof.
  intros token chat. subst token chat.
  unfold deleteTelegramMessage.
  destruct (negb (truthy messageId) || negb (truthy (TG_Bot_Token env))
            || negb (truthy (TG_Chat_ID env))).
  { exists (JBool false), data, []. rewrite app_nil_r. split; [reflexivity | auto]. }
  unfold try_catch, bind, await, modify, get_locals, read_ok, ret, throw. simpl.
  destruct (h FetchResponse log (Fetch (TG_Bot_Token env) (TG_Chat_ID env) messageId))
    as [[ok_flag] | e] eqn:Hfetch; simpl.
  - match goal with
    | |- context [h JsonBody ?l ResponseJson] =>
        destruct (h JsonBody l ResponseJson) as [[| ok] | e] eqn:Hjson
    end; simpl; destruct ok_flag; simpl;
      eexists _, _, _; rewrite <- app_assoc; simpl; (split; [reflexivity |]);
      right; right; eexists _, _; (split; [reflexivity |]); (split; [reflexivity |]);
      (split; [exact Hjson |]); split; try discriminate; auto.
  - eexists _, _, _. split; [reflexivity |]. right. left. eauto.
Qed.

(** ** Bindings a path does not use *)

Lemma deleteTelegramMessage_credentials mid env env' :
  TG_Bot_Token env' = TG_Bot_Token env ->
  TG_Chat_ID env' = TG_Chat_ID env ->
  deleteTelegramMessage mid env' = deleteTelegramMessage mid env.
Proof. unfold deleteTelegramMessage. now intros -> ->. Qed.

Lemma remote_attempt_unique h env mid probes deleted remote deleted' remote' :
  remote_attempt h env mid probes deleted remote ->
  remote_attempt h env mid probes deleted' remote' ->
  deleted' = deleted /\ remote' = remote.
Proof.
  unfold remote_attempt. destruct (truthy mid).
  - intros [data Hrun] [data' Hrun']. rewrite Hrun in Hrun'.
    injection Hrun' as <- _ Hlog. apply app_inv_head in Hlog. auto.
  - intros [-> ->] [-> ->]. auto.
Qed.

(** X13.  A path consults only its own bindings.  For two contexts with the
    same path parameter and the same key-value binding: a request
    classified to the messaging backend is answered alike whether or not
    the object-store binding is configured, a request classified to the
    object store is answered alike whatever the messaging credentials are,
    and a request whose record is not found is answered alike whatever
    both are. *)
Theorem unused_bindings_are_not_consulted
    (decodeURIComponent : string -> option string) (h : Handler) (context context' : Context)
    (record : option KvRecord) (kvKey : string) (probes : list LogEntry) :
  params_id context' = params_id context ->
  img_url (env context') = true ->
  img_url (env context) = true ->
  resolves decodeURIComponent h context record kvKey probes ->
  let fileId := decodedFileId decodeURIComponent (params_id context) in
  (record_metadata record = None ->
   serve decodeURIComponent h context' = serve decodeURIComponent h context) /\
  (forall metadata,
     record_metadata record = Some metadata ->
     isR2 fileId metadata = false ->
     TG_Bot_Token (env context') = TG_Bot_Token (env context) ->
     TG_Chat_ID (env context') = TG_Chat_ID (env context) ->
     serve decodeURIComponent h context' = serve decodeURIComponent h context) /\
  (forall metadata,
     record_metadata record = Some metadata ->
     isR2 fileId metadata = true ->
     R2_BUCKET (env context') = R2_BUCKET (env context) ->
     serve decodeURIComponent h context' = serve decodeURIComponent h context).
Proof.
  intros Hid Himg' Himg Hres fileId.
  assert (Hres' : resolves decodeURIComponent h context' record kvKey probes)
    by (unfold resolves in *; now rewrite Hid).
  split; [| split].
  - intros Hmeta.
    rewrite (serve_not_found decodeURIComponent h context' record kvKey probes
               Himg' Hres' Hmeta).
    now rewrite (serve_not_found decodeURIComponent h context record kvKey probes
                   Himg Hres Hmeta).
  - intros metadata Hmeta Hr2 Htoken Hchat.
    assert (Hr2' : isR2 (decodedFileId decodeURIComponent (params_id context')) metadata
                   = false) by now rewrite Hid.
    destruct (serve_messaging decodeURIComponent h context record kvKey probes metadata
                Himg Hres Hmeta Hr2) as (deleted & remote & Hattempt & Hserve).
    destruct (serve_messaging decodeURIComponent h context' record kvKey probes metadata
                Himg' Hres' Hmeta Hr2') as (deleted' & remote' & Hattempt' & Hserve').
    cbv zeta in *.
    rewrite (deleteTelegramMessage_credentials _ _ _ Htoken Hchat) in Hattempt'.
    destruct (remote_attempt_unique h (env context) (telegramMessageId metadata) probes
                deleted remote deleted' remote' Hattempt Hattempt') as [-> ->].
    rewrite Hserve, Hserve', Hid. reflexivity.
  - intros metadata Hmeta Hr2 Hbucket.
    assert (Hr2' : isR2 (decodedFileId decodeURIComponent (params_id context')) metadata
                   = true) by now rewrite Hid.
    rewrite (serve_object_store decodeURIComponent h context' record kvKey probes metadata
               Himg' Hres' Hmeta Hr2').
    rewrite (serve_object_store decodeURIComponent h context record kvKey probes metadata
               Himg Hres Hmeta Hr2).
    cbv zeta. rewrite Hid, Hbucket. reflexivity.
Qed.

Lemma unused_bindings_are_not_consulted_witness :
  serve Some network_down_world
    (mkContext (mkEnv true false (JStr "token") (JStr "chat")) "xyz")
  = serve Some network_down_world (mkContext configured_env "xyz").
Proof.
  assert (Hres : resolves Some network_down_world (mkContext configured_env "xyz")
                   (Some (telegram_record (JNum 7))) "img:xyz"
                   [LKvGet "img:xyz" (Returned (Some (telegram_record (JNum 7))))])
    by (vm_compute; reflexivity).
  destruct (unused_bindings_are_not_consulted Some network_down_world
              (mkContext configured_env "xyz")
              (mkContext (mkEnv true false (JStr "token") (JStr "chat")) "xyz")
              _ _ _ eq_refl eq_refl eq_refl Hres) as (_ & Hmessaging & _).
  exact (Hmessaging _ eq_refl eq_refl eq_refl eq_refl).
Defined.

(** ** What the resolver returns *)

(** X10.  [getRecordWithKey] issues between one and six lookups and hands
    back either no record, with the identifier, or a record that has
    metadata, with the candidate key of the lookup issued last, which is the
    lookup that returned this record; it raises only with the exception of
    the lookup issued last.  A record without metadata is never returned. *)
Theorem resolver_returns_metadata_or_nothing
    (fileId : string) (h : Handler) (log : list LogEntry) :
  exists r probed,
    run (getRecordWithKey fileId tt) h log = ((r, tt), log ++ probed) /\
    1 <= length probed <= 6 /\
    match r with
    | Returned (None, key) => key = fileId
    | Returned (Some stored, key) =>
        (exists metadata, kv_metadata stored = Some metadata) /\
        key ∈ candidateKeys fileId /\
        last probed = Some (LKvGet key (Returned (Some stored)))
    | Raised e => exists key, last probed = Some (LKvGet key (Raised e))
    end.
Proof.
  destruct (probe_spec (candidateKeys fileId) fileId tt h log)
    as (r & probed & Hrun & Hout).
  exists r, probed. split; [exact Hrun |].
  pose proof (probe_outcome_length _ _ _ _ Hout) as Hlen.
  assert (Hsix : length probed <= 6)
    by (destruct (candidateKeys_length fileId); lia).
  pose proof Hout as (misses & final & Hp & Hmiss & Hkeys & Hend).
  destruct Hend as [(-> & Hall & ->) | [(k & stored & m & -> & Hm & ->) | (k & e & -> & ->)]].
  - rewrite app_nil_r in Hp. subst probed.
    split; [| reflexivity].
    destruct (candidateKeys_length fileId) as [Hone | Hfull];
      rewrite ?Hone, ?Hfull in Hall; rewrite Hall; split; lia.
  - split; [rewrite Hp, length_app in *; simpl in *; lia |].
    destruct (probe_outcome_hit _ _ _ _ _ m Hout Hm) as (_ & _ & _ & _ & _ & _ & Hcand).
    split; [eauto |]. split; [exact Hcand |].
    rewrite Hp. apply last_snoc.
  - split; [rewrite Hp, length_app in *; simpl in *; lia |].
    exists k. rewrite Hp. apply last_snoc.
Qed.
